(** * tribute-ui: proposal classification and the DAO total-units hook

    A shallow embedding of two pieces of the front-end:

    - the classification effect of the [Proposals] component, which sorts the
      fetched proposals into the four lists [failedProposals],
      [nonsponsoredProposals], [passedProposals] and [votingProposals];
    - the hook [useDaoTotalUnits], which reads the DAO's unit totals from the
      subgraph and falls back to the bank extension contract.

    JavaScript numbers are IEEE 754 binary64 values; they are represented by
    the standard library's [spec_float]. *)

From Stdlib Require Import ZArith List String Ascii Bool Lia.
From Stdlib Require Import Floats.SpecFloat.
Import ListNotations.

Local Open Scope Z_scope.

(** ** Shared types *)

(** Modelled from the spec: [AsyncStatus] is declared in [util/types], which
    is not among the sources; the spec lists these four statuses. *)
Inductive AsyncStatus : Type :=
| STANDBY
| PENDING
| FULFILLED
| REJECTED.

Definition AsyncStatus_eqb (a b : AsyncStatus) : bool :=
  match a, b with
  | STANDBY, STANDBY | PENDING, PENDING
  | FULFILLED, FULFILLED | REJECTED, REJECTED => true
  | _, _ => false
  end.

(** The statuses in which a fetch has ended. *)
Definition isTerminal (s : AsyncStatus) : bool :=
  match s with
  | FULFILLED | REJECTED => true
  | STANDBY | PENDING => false
  end.

(** A JavaScript [Error]: only its message is observed. *)
Record Error : Type := mkError { message : string }.

(** ** JavaScript numbers *)

Module JS.

Definition prec : Z := 53.
Definition emax : Z := 1024.

(** A JavaScript [number]. *)
Definition number : Type := spec_float.

(** [Number(s)] for [s] the decimal string of the integer [z] (this is also
    [Number(bn)] for a [BN] holding [z], which goes through [bn.toString()]):
    the binary64 value nearest to [z], ties to even. *)
Definition Number (z : Z) : number := binary_normalize prec emax z 0 false.

(** [Number.MAX_SAFE_INTEGER], 2^53 - 1. *)
Definition MAX_SAFE_INTEGER : Z := 9007199254740991.

(** The integer a number is equal to, when it is equal to one. *)
Definition integerValue (x : number) : option Z :=
  match x with
  | S754_zero _ => Some 0
  | S754_finite s m e =>
      if 0 <=? e then Some (cond_Zopp s (Z.pos m * 2 ^ e))
      else if Z.pos m mod 2 ^ (- e) =? 0
           then Some (cond_Zopp s (Z.pos m / 2 ^ (- e)))
           else None
  | S754_infinity _ | S754_nan => None
  end.

(** [x < 0] and [x >= 0] on numbers. *)
Definition isNegative (x : number) : bool := SFltb x (S754_zero false).
Definition isNonNegative (x : number) : bool := SFleb (S754_zero false) x.

(** [a > b] on numbers: false as soon as one side is NaN. *)
Definition gt (a b : number) : bool := SFltb b a.

(** [String.prototype.toLowerCase], on ASCII letters. *)
Definition lowerAscii (c : ascii) : ascii :=
  let n := nat_of_ascii c in
  if ((65 <=? n) && (n <=? 90))%nat then ascii_of_nat (n + 32) else c.

Fixpoint toLowerCase (s : string) : string :=
  match s with
  | EmptyString => EmptyString
  | String c r => String (lowerAscii c) (toLowerCase r)
  end.

(** Truthiness of a possibly undefined string: defined and not empty. *)
Definition truthy (s : option string) : bool :=
  match s with
  | Some EmptyString | None => false
  | Some _ => true
  end.

End JS.

(** ** The [Proposals] component *)

Module Proposals.

(** Modelled from the spec: [ProposalFlag] is declared in [./types], which is
    not among the sources; these are the flags the spec names and the
    component tests. *)
Inductive ProposalFlag : Type :=
| EXISTS
| SPONSORED
| PROCESSED.

(** Modelled from the spec: [VotingState] is declared in [./voting/types],
    which is not among the sources; the spec lists these five states. *)
Inductive VotingState : Type :=
| IN_PROGRESS
| GRACE_PERIOD
| TIE
| PASS
| NOT_PASS.

Definition VotingState_eqb (a b : VotingState) : bool :=
  match a, b with
  | IN_PROGRESS, IN_PROGRESS | GRACE_PERIOD, GRACE_PERIOD | TIE, TIE
  | PASS, PASS | NOT_PASS, NOT_PASS => true
  | _, _ => false
  end.

(** Modelled from the spec: [proposalHasVotingState] of [./helpers] is not
    among the sources. The spec reads each test as "vote state is X": the
    helper compares the proposal's vote state with the state asked for. *)
Definition proposalHasVotingState (stateToCheck voteState : VotingState) : bool :=
  VotingState_eqb stateToCheck voteState.

(** The on-chain proposal record; [flags] is the bit field of the registry. *)
Record DaoProposal : Type := mkDaoProposal {
  adapterAddress : string;
  flags : Z;
}.

(** [daoProposalVotes.OffchainVotingContract]: the classifier reads only the
    reporter of the submitted result. *)
Record OffchainVotes : Type := mkOffchainVotes {
  reporter : string;
}.

Record VotesData : Type := mkVotesData {
  OffchainVotingContract : option OffchainVotes;
}.

(** The Snapshot proposal; a vote is kept as its raw message. *)
Record SnapshotProposal : Type := mkSnapshotProposal {
  idInDAO : option string;
  votes : option (list string);
}.

(** [ProposalData], with the fields the classification reads. *)
Record ProposalData : Type := mkProposalData {
  snapshotProposal : option SnapshotProposal;
  daoProposal : option DaoProposal;
  daoProposalVotingState : option VotingState;
  daoProposalVotes : option VotesData;
}.

(** [VotingResult]: units per choice. *)
Record VoteTally : Type := mkVoteTally { units : JS.number }.

Record VotingResult : Type := mkVotingResult {
  Yes : VoteTally;
  No : VoteTally;
}.

Record FilteredProposals : Type := mkFilteredProposals {
  failedProposals : list ProposalData;
  nonsponsoredProposals : list ProposalData;
  passedProposals : list ProposalData;
  votingProposals : list ProposalData;
}.

(** The four lists, as an index into [FilteredProposals]. *)
Inductive Bucket : Type :=
| Failed
| Nonsponsored
| Passed
| Voting.

Definition bucket (b : Bucket) (fp : FilteredProposals) : list ProposalData :=
  match b with
  | Failed => failedProposals fp
  | Nonsponsored => nonsponsoredProposals fp
  | Passed => passedProposals fp
  | Voting => votingProposals fp
  end.

(** [fp.<bucket>.push(p)] *)
Definition push (b : Bucket) (fp : FilteredProposals) (p : ProposalData)
  : FilteredProposals :=
  match b with
  | Failed =>
      mkFilteredProposals (failedProposals fp ++ [p]) (nonsponsoredProposals fp)
                          (passedProposals fp) (votingProposals fp)
  | Nonsponsored =>
      mkFilteredProposals (failedProposals fp) (nonsponsoredProposals fp ++ [p])
                          (passedProposals fp) (votingProposals fp)
  | Passed =>
      mkFilteredProposals (failedProposals fp) (nonsponsoredProposals fp)
                          (passedProposals fp ++ [p]) (votingProposals fp)
  | Voting =>
      mkFilteredProposals (failedProposals fp) (nonsponsoredProposals fp)
                          (passedProposals fp) (votingProposals fp ++ [p])
  end.

Definition Bucket_eqb (a b : Bucket) : bool :=
  match a, b with
  | Failed, Failed | Nonsponsored, Nonsponsored
  | Passed, Passed | Voting, Voting => true
  | _, _ => false
  end.

Definition emptyFilteredProposals : FilteredProposals :=
  mkFilteredProposals [] [] [] [].

(** [didPassSimpleMajority] *)
Definition didPassSimpleMajority (offchainVoteResult : VotingResult) : bool :=
  JS.gt (units (Yes offchainVoteResult)) (units (No offchainVoteResult)).

(** What the hooks called by the component return. *)
Record Hooks : Type := mkHooks {
  proposals : list ProposalData;
  proposalsStatus : AsyncStatus;
  proposalsError : option Error;
  offchainVotingResults : list (string * VotingResult);
  offchainVotingResultsStatus : AsyncStatus;
  offchainVotingResultsError : option Error;
  defaultChainError : option Error;
}.

Section Component.

(** Imported by the component and not among the sources: they stay
    parameters of the embedding. *)
Variable proposalHasFlag : ProposalFlag -> Z -> bool.
Variable normalizeString : string -> string.
Variable BURN_ADDRESS : string.

(** The prop [includeProposalsExistingOnlyOffchain]. *)
Variable includeProposalsExistingOnlyOffchain : bool.

(** [p.snapshotProposal?.votes?.length === 0] *)
Definition noSnapshotVotes (p : ProposalData) : bool :=
  match snapshotProposal p with
  | Some sp =>
      match votes sp with
      | Some vs => (List.length vs =? 0)%nat
      | None => false
      end
  | None => false
  end.

(** [votesData?.OffchainVotingContract?.reporter === BURN_ADDRESS] *)
Definition reporterIsBurnAddress (p : ProposalData) : bool :=
  match daoProposalVotes p with
  | Some vd =>
      match OffchainVotingContract vd with
      | Some ov => String.eqb (reporter ov) BURN_ADDRESS
      | None => false
      end
  | None => false
  end.

Definition offchainResultNotYetSubmitted (p : ProposalData) (dp : DaoProposal)
  : bool :=
  match daoProposalVotingState p with
  | None => false
  | Some voteState =>
      (proposalHasVotingState GRACE_PERIOD voteState
       || proposalHasVotingState TIE voteState)
      && proposalHasFlag SPONSORED (flags dp)
      && reporterIsBurnAddress p
  end.

(** [p.snapshotProposal?.idInDAO || ''] *)
Definition idInDAO_or_empty (p : ProposalData) : string :=
  match snapshotProposal p with
  | Some sp =>
      match idInDAO sp with
      | Some s => s
      | None => EmptyString
      end
  | None => EmptyString
  end.

(** [offchainVotingResults.find(...)?.[1]] *)
Definition findOffchainResult (results : list (string * VotingResult))
  (p : ProposalData) : option VotingResult :=
  option_map snd
    (find (fun entry =>
             String.eqb (normalizeString (fst entry))
                        (normalizeString (idInDAO_or_empty p)))
          results).

(** The callback of [proposals.forEach]: every [return] leaves the
    accumulator as it is at that point. *)
Definition classifyProposal (results : list (string * VotingResult))
  (acc : FilteredProposals) (p : ProposalData) : FilteredProposals :=
  match daoProposal p with
  | None => acc
  | Some dp =>
      let hasFlag f := proposalHasFlag f (flags dp) in
      match daoProposalVotingState p with
      | None =>
          (* Non-sponsored proposal *)
          if includeProposalsExistingOnlyOffchain then push Nonsponsored acc p
          else if hasFlag EXISTS then push Nonsponsored acc p
          else acc
      | Some voteState =>
          (* Passed proposal *)
          if proposalHasVotingState PASS voteState
             && (hasFlag SPONSORED || hasFlag PROCESSED)
          then push Passed acc p
          else
            match findOffchainResult results p with
            | None => acc
            | Some offchainResult =>
                let didPass := didPassSimpleMajority offchainResult in
                (* Voting proposal: result not submitted, votes, passing *)
                if offchainResultNotYetSubmitted p dp
                   && negb (noSnapshotVotes p)
                   && didPass
                then push Voting acc p
                (* Failed proposal *)
                else if (proposalHasVotingState NOT_PASS voteState
                         || proposalHasVotingState TIE voteState)
                        && (hasFlag SPONSORED || hasFlag PROCESSED)
                then push Failed acc p
                (* Failed proposal: no Snapshot votes *)
                else if offchainResultNotYetSubmitted p dp
                        && noSnapshotVotes p
                then push Failed acc p
                (* Failed proposal: result not submitted; vote did not pass *)
                else if offchainResultNotYetSubmitted p dp && negb didPass
                then push Failed acc p
                (* Voting proposal *)
                else if (proposalHasVotingState GRACE_PERIOD voteState
                         || proposalHasVotingState IN_PROGRESS voteState)
                        && hasFlag SPONSORED
                then push Voting acc p
                else acc
            end
      end
  end.

(** The list the callback pushes [p] to, if any: the branch it takes, read
    off [classifyProposal] (see [classifyProposal_decision]). *)
Definition decision (results : list (string * VotingResult))
  (p : ProposalData) : option Bucket :=
  match daoProposal p with
  | None => None
  | Some dp =>
      let hasFlag f := proposalHasFlag f (flags dp) in
      match daoProposalVotingState p with
      | None =>
          if includeProposalsExistingOnlyOffchain || hasFlag EXISTS
          then Some Nonsponsored else None
      | Some voteState =>
          if proposalHasVotingState PASS voteState
             && (hasFlag SPONSORED || hasFlag PROCESSED)
          then Some Passed
          else
            match findOffchainResult results p with
            | None => None
            | Some offchainResult =>
                let didPass := didPassSimpleMajority offchainResult in
                let notSubmitted := offchainResultNotYetSubmitted p dp in
                if notSubmitted && negb (noSnapshotVotes p) && didPass
                then Some Voting
                else if ((proposalHasVotingState NOT_PASS voteState
                          || proposalHasVotingState TIE voteState)
                         && (hasFlag SPONSORED || hasFlag PROCESSED))
                        || (notSubmitted && noSnapshotVotes p)
                        || (notSubmitted && negb didPass)
                then Some Failed
                else if (proposalHasVotingState GRACE_PERIOD voteState
                         || proposalHasVotingState IN_PROGRESS voteState)
                        && hasFlag SPONSORED
                then Some Voting
                else None
            end
      end
  end.

(** The loop of the effect, from the empty [filteredProposalsToSet]. *)
Definition classify (results : list (string * VotingResult))
  (ps : list ProposalData) : FilteredProposals :=
  fold_left (classifyProposal results) ps emptyFilteredProposals.

(** The classification effect: [None] when it returns before the loop,
    otherwise the [filteredProposalsToSet] it hands to
    [setFilteredProposals]. *)
Definition classificationEffect (h : Hooks) : option FilteredProposals :=
  if negb (AsyncStatus_eqb (proposalsStatus h) FULFILLED) then None
  else Some (classify (offchainVotingResults h) (proposals h)).

(** [setFilteredProposals (prevState => ({...prevState, ...toSet}))] *)
Definition setFilteredProposals (prevState toSet : FilteredProposals)
  : FilteredProposals :=
  mkFilteredProposals (failedProposals toSet) (nonsponsoredProposals toSet)
                      (passedProposals toSet) (votingProposals toSet).

(** The state [filteredProposals] after the effect has run. *)
Definition afterClassificationEffect (h : Hooks) (prevState : FilteredProposals)
  : FilteredProposals :=
  match classificationEffect h with
  | None => prevState
  | Some toSet => setFilteredProposals prevState toSet
  end.

(** [isLoading]; [proposalsForVotingResults] is the state the first effect
    keeps equal to [proposals.map(p => p.snapshotProposal)]. *)
Definition isLoading (h : Hooks)
  (proposalsForVotingResults : list (option SnapshotProposal)) : bool :=
  AsyncStatus_eqb (proposalsStatus h) STANDBY
  || AsyncStatus_eqb (proposalsStatus h) PENDING
  || (AsyncStatus_eqb (offchainVotingResultsStatus h) STANDBY
      && (0 <? List.length proposalsForVotingResults)%nat)
  || AsyncStatus_eqb (offchainVotingResultsStatus h) PENDING.

End Component.

(** Modelled from the spec: [proposalHasFlag] of [./helpers] is not among the
    sources. The spec describes the flags as a bit-flag set in which several
    flags can be held at once; bit [i] of the on-chain value stands for the
    [i]-th flag of the enumeration. *)
Definition flagIndex (f : ProposalFlag) : Z :=
  match f with
  | EXISTS => 0
  | SPONSORED => 1
  | PROCESSED => 2
  end.

Definition proposalHasFlag_bits (flagToCheck : ProposalFlag) (flags : Z) : bool :=
  Z.testbit flags (flagIndex flagToCheck).

(** Modelled from the spec: [normalizeString] of [util/helpers] is not among
    the sources. The spec calls the match case-insensitive. *)
Definition normalizeString_lower (s : string) : string := JS.toLowerCase s.

(** Modelled from the spec: [BURN_ADDRESS] of [util/constants] is not among
    the sources; the spec calls it a reserved null/burn address. *)
Definition BURN_ADDRESS_zero : string :=
  "0x0000000000000000000000000000000000000000"%string.

(** *** What the component renders *)

(** The headers of [ProposalHeaderNames] the component uses. *)
Inductive ProposalHeaderNames : Type :=
| VOTING
| REQUESTS
| PASSED
| FAILED.

(** What [Proposals] returns. A section of the grid is its header and the
    proposals handed to [renderProposalCards]; the cards themselves are not
    modelled. *)
Inductive View : Type :=
| LoaderLarge
| ErrorMessageWithDetails (error : Error)
| NoProposalsYet
| Grid (sections : list (ProposalHeaderNames * list ProposalData)).

(** [proposalsError || offchainVotingResultsError || defaultChainError] *)
Definition error (h : Hooks) : option Error :=
  match proposalsError h with
  | Some e => Some e
  | None =>
      match offchainVotingResultsError h with
      | Some e => Some e
      | None => defaultChainError h
      end
  end.

(** The first effect: [proposals.map((p) => p.snapshotProposal)]. *)
Definition proposalsForVotingResultsEffect (h : Hooks)
  : list (option SnapshotProposal) :=
  map snapshotProposal (proposals h).

(** [Object.values(filteredProposals).flatMap((p) => p)] *)
Definition allFiltered (fp : FilteredProposals) : list ProposalData :=
  failedProposals fp ++ nonsponsoredProposals fp
  ++ passedProposals fp ++ votingProposals fp.

(** [list.length > 0 && (<section/>)] *)
Definition section (name : ProposalHeaderNames) (l : list ProposalData)
  : list (ProposalHeaderNames * list ProposalData) :=
  if (0 <? List.length l)%nat then [(name, l)] else [].

(** The render, from the hooks' values and the two pieces of state. *)
Definition render (h : Hooks)
  (proposalsForVotingResults : list (option SnapshotProposal))
  (filteredProposals : FilteredProposals) : View :=
  if isLoading h proposalsForVotingResults
     && match error h with None => true | Some _ => false end
  then LoaderLarge
  else
    match error h with
    | Some e => ErrorMessageWithDetails e
    | None =>
        if (List.length (allFiltered filteredProposals) =? 0)%nat
           && AsyncStatus_eqb (proposalsStatus h) FULFILLED
        then NoProposalsYet
        else
          Grid (section VOTING (votingProposals filteredProposals)
                ++ section REQUESTS (nonsponsoredProposals filteredProposals)
                ++ section PASSED (passedProposals filteredProposals)
                ++ section FAILED (failedProposals filteredProposals))
    end.

End Proposals.

(** ** The hook [useDaoTotalUnits] *)

Module UseDaoTotalUnits.

(** Modelled from the spec: [SubgraphNetworkStatus] is declared in the store,
    which is not among the sources; the spec gives the signal two states, and
    the hook only tells [OK] from the rest. *)
Inductive SubgraphNetworkStatus : Type :=
| OK
| NOT_OK.

(** The four pieces of state of the hook. *)
Record State : Type := mkState {
  totalUnits : option JS.number;
  totalUnitsIssued : option JS.number;
  totalUnitsStatus : AsyncStatus;
  totalUnitsError : option Error;
}.

Definition initialState : State := mkState None None STANDBY None.

(** What leaves the hook: the subgraph query and the contract reads. *)
Inductive Request : Type :=
| SubgraphQuery (id : option string)
| ContractCall (account tokenAddr : string).

Definition isSubgraphQuery (r : Request) : bool :=
  match r with
  | SubgraphQuery _ => true
  | ContractCall _ _ => false
  end.

(** The hook's state together with the requests sent so far. *)
Record World : Type := mkWorld {
  state : State;
  sent : list Request;
}.

(** A statement either completes or throws. *)
Inductive Completion (A : Type) : Type :=
| Normal (a : A)
| Throw (e : Error).

Arguments Normal {A} a.
Arguments Throw {A} e.

(** Statements: they read and write the world and may throw. *)
Definition Stmt (A : Type) : Type := World -> Completion A * World.

Definition ret {A : Type} (a : A) : Stmt A := fun w => (Normal a, w).

Definition bind {A B : Type} (m : Stmt A) (k : A -> Stmt B) : Stmt B :=
  fun w =>
    match m w with
    | (Normal a, w') => k a w'
    | (Throw e, w') => (Throw e, w')
    end.

Definition throw {A : Type} (e : Error) : Stmt A := fun w => (Throw e, w).

(** [try { body } catch (error) { handler }] *)
Definition tryCatch {A : Type} (body : Stmt A) (handler : Error -> Stmt A)
  : Stmt A :=
  fun w =>
    match body w with
    | (Normal a, w') => (Normal a, w')
    | (Throw e, w') => handler e w'
    end.

Declare Scope stmt_scope.
Delimit Scope stmt_scope with stmt.
Notation "x <- m ;; k" := (bind m (fun x => k))
  (at level 61, m at next level, right associativity) : stmt_scope.
Notation "m ;; k" := (bind m (fun _ => k))
  (at level 61, right associativity) : stmt_scope.

Definition modifyState (f : State -> State) : Stmt unit :=
  fun w => (Normal tt, mkWorld (f (state w)) (sent w)).

Definition setTotalUnits (v : option JS.number) : Stmt unit :=
  modifyState (fun s =>
    mkState v (totalUnitsIssued s) (totalUnitsStatus s) (totalUnitsError s)).

Definition setTotalUnitsIssued (v : option JS.number) : Stmt unit :=
  modifyState (fun s =>
    mkState (totalUnits s) v (totalUnitsStatus s) (totalUnitsError s)).

Definition setTotalUnitsStatus (v : AsyncStatus) : Stmt unit :=
  modifyState (fun s =>
    mkState (totalUnits s) (totalUnitsIssued s) v (totalUnitsError s)).

Definition setTotalUnitsError (v : option Error) : Stmt unit :=
  modifyState (fun s =>
    mkState (totalUnits s) (totalUnitsIssued s) (totalUnitsStatus s) v).

Definition send (r : Request) : Stmt unit :=
  fun w => (Normal tt, mkWorld (state w) (sent w ++ [r])).

(** The bank extension contract: [balanceOf(account, token).call()] either
    returns a decimal string, kept as the integer it denotes, or throws. *)
Record BankExtension : Type := mkBankExtension {
  balanceOf : string -> string -> Completion Z;
}.

Definition callBalanceOf (c : BankExtension) (account tokenAddr : string)
  : Stmt Z :=
  fun w =>
    (balanceOf c account tokenAddr,
     mkWorld (state w) (sent w ++ [ContractCall account tokenAddr])).

(** [toBN] and [BN.sub]: a [BN] is an integer of any size, signed. *)
Definition toBN (z : Z) : Z := z.
Definition BN_sub (a b : Z) : Z := a - b.

(** A DAO of the subgraph reply; the two fields are decimal strings, kept
    as the integers they denote. *)
Record TributeDao : Type := mkTributeDao {
  dao_totalUnits : Z;
  dao_totalUnitsIssued : Z;
}.

Record QueryData : Type := mkQueryData {
  tributeDaos : list TributeDao;
}.

(** What [useLazyQuery] returns besides the function that runs the query. *)
Record LazyQuery : Type := mkLazyQuery {
  called : bool;
  loading : bool;
  data : option QueryData;
  error : option Error;
}.

(** What the selectors and the lazy query give to one run of the effects. *)
Record Inputs : Type := mkInputs {
  contractAddress : option string;
  BankExtensionContract : option BankExtension;
  subgraphNetworkStatus : SubgraphNetworkStatus;
  query : LazyQuery;
}.

Section Hook.

(** [TOTAL_ADDRESS], [GUILD_ADDRESS] and [UNITS_ADDRESS] of [../config], which
    is not among the sources. *)
Variable TOTAL_ADDRESS GUILD_ADDRESS UNITS_ADDRESS : string.

Local Open Scope stmt_scope.

(** [getTotalUnitsFromExtension]: the awaited reads are run in order, to
    completion. *)
Definition getTotalUnitsFromExtension (bank : option BankExtension)
  : Stmt unit :=
  match bank with
  | None => ret tt
  | Some c =>
      tryCatch
        (setTotalUnitsStatus PENDING ;;
         totalUnitsToSet <- callBalanceOf c TOTAL_ADDRESS UNITS_ADDRESS ;;
         balanceOfGuildUnits <- callBalanceOf c GUILD_ADDRESS UNITS_ADDRESS ;;
         let totalUnitsIssuedToSet :=
           BN_sub (toBN totalUnitsToSet) (toBN balanceOfGuildUnits) in
         setTotalUnits (Some (JS.Number totalUnitsToSet)) ;;
         setTotalUnitsIssued (Some (JS.Number totalUnitsIssuedToSet)) ;;
         setTotalUnitsStatus FULFILLED)
        (fun error =>
           setTotalUnits None ;;
           setTotalUnitsIssued None ;;
           setTotalUnitsError (Some error) ;;
           setTotalUnitsStatus REJECTED)
  end.

(** [getTotalUnitsFromSubgraph]; destructuring [data.tributeDaos[0]] throws a
    [TypeError] when the list is empty. *)
Definition getTotalUnitsFromSubgraph (q : LazyQuery)
  (bank : option BankExtension) : Stmt unit :=
  tryCatch
    (setTotalUnitsStatus PENDING ;;
     match negb (loading q), data q with
     | true, Some d =>
         match tributeDaos d with
         | dao :: _ =>
             setTotalUnits (Some (JS.Number (dao_totalUnits dao))) ;;
             setTotalUnitsIssued (Some (JS.Number (dao_totalUnitsIssued dao))) ;;
             setTotalUnitsStatus FULFILLED
         | [] =>
             throw (mkError "Cannot destructure property of undefined")
         end
     | _, _ =>
         match error q with
         | Some e => throw (mkError (message e))
         | None => ret tt
         end
     end)
    (fun _ => getTotalUnitsFromExtension bank).

(** The first effect: run the lazy query once. *)
Definition lazyQueryEffect (i : Inputs) : Stmt unit :=
  if negb (called (query i))
  then send (SubgraphQuery (option_map JS.toLowerCase (contractAddress i)))
  else ret tt.

(** The second effect: choose the source by the subgraph's health. *)
Definition networkStatusEffect (i : Inputs) : Stmt unit :=
  match subgraphNetworkStatus i with
  | OK =>
      if negb (loading (query i)) && JS.truthy (contractAddress i)
      then getTotalUnitsFromSubgraph (query i) (BankExtensionContract i)
      else ret tt
  | NOT_OK => getTotalUnitsFromExtension (BankExtensionContract i)
  end.

(** Both effects, in the order the hook declares them. *)
Definition runEffects (i : Inputs) : Stmt unit :=
  lazyQueryEffect i ;; networkStatusEffect i.

End Hook.

(** Modelled from the spec: the three account constants of [../config]; the
    spec only says that they are well-known accounts. *)
Definition TOTAL_ADDRESS_model : string :=
  "0x000000000000000000000000000000000000babe"%string.
Definition GUILD_ADDRESS_model : string :=
  "0x000000000000000000000000000000000000dead"%string.
Definition UNITS_ADDRESS_model : string :=
  "0x00000000000000000000000000000000000ff1ce"%string.



End UseDaoTotalUnits.

(** ** The component [SponsorAction] *)

Module SponsorAction.

Import UseDaoTotalUnits.

(** [Web3TxStatus] of [../web3/types], which is not among the sources: the
    three statuses the component names, and any other member by its name. *)
Inductive Web3TxStatus : Type :=
| AWAITING_CONFIRM
| PENDING
| FULFILLED
| OtherStatus (name : string).

Definition Web3TxStatus_eqb (a b : Web3TxStatus) : bool :=
  match a, b with
  | AWAITING_CONFIRM, AWAITING_CONFIRM | PENDING, PENDING
  | FULFILLED, FULFILLED => true
  | OtherStatus x, OtherStatus y => String.eqb x y
  | _, _ => false
  end.

(** The Snapshot draft of the proposal, with the fields the component
    reads. *)
Record DraftPayload : Type := mkDraftPayload {
  name : string;
  body : string;
  metadata : string;
}.

Record DraftMessage : Type := mkDraftMessage {
  payload : DraftPayload;
  timestamp : string;
}.

Record SnapshotDraft : Type := mkSnapshotDraft {
  actionId : string;
  idInDAO : string;
  msg : DraftMessage;
}.

(** A contract of the store: its address and the handle of its methods. *)
Record Contract : Type := mkContract {
  contractAddress : string;
  instance_methods : string;
}.

(** The member of [SnapshotType] the component uses. *)
Inductive SnapshotType : Type :=
| SnapshotType_proposal.

(** The argument of [signAndSendProposal]; [partialProposalData] is the
    name, body and metadata of the draft with its timestamp. *)
Record SignArguments : Type := mkSignArguments {
  partialProposalData : DraftPayload * string;
  adapterAddress : string;
  type : SnapshotType;
}.

(** What [signAndSendProposal] resolves to. *)
Record SignedPayload : Type := mkSignedPayload {
  signed_name : string;
  signed_body : string;
  choices : list string;
  snapshot : Z;
  start : Z;
  end_ : Z;
}.

Record SignedData : Type := mkSignedData {
  signed_payload : SignedPayload;
  space : string;
  signed_timestamp : string;
}.

Record Signed : Type := mkSigned {
  data : SignedData;
  signature : string;
}.

(** [dataToPrepare] *)
Record PreparedPayload : Type := mkPreparedPayload {
  prepared_name : string;
  prepared_body : string;
  prepared_choices : list string;
  prepared_snapshot : string;
  prepared_start : Z;
  prepared_end : Z;
}.

Record DataToPrepare : Type := mkDataToPrepare {
  prepared_payload : PreparedPayload;
  sig : string;
  prepared_space : string;
  prepared_timestamp : JS.number;
}.

(** [SponsorArguments]: dao, proposal id, proposal data. *)
Definition SponsorArguments : Type := (string * string * string)%type.

Record GasPrices : Type := mkGasPrices { fast : string }.

Record TxArguments : Type := mkTxArguments {
  from : string;
  gasPrice : option string;
}.

(** What the selectors and hooks give to the component. *)
Record Hooks : Type := mkHooks {
  daoRegistryAddress : option string;
  account : option string;
  txStatus : Web3TxStatus;
  txIsPromptOpen : bool;
  txEtherscanURL : string;
  proposalSignAndSendStatus : Web3TxStatus;
  isDisabled : bool;
  gasPrices : option GasPrices;
}.

(** The calls that leave the component. *)
Inductive Call : Type :=
| SignAndSendProposal (arguments : SignArguments)
| TxSend (method : string) (methods : string) (arguments : SponsorArguments)
         (txArguments : TxArguments).

(** The state [submitError] and the calls made so far. *)
Record World : Type := mkWorld {
  submitError : option Error;
  calls : list Call;
}.

Definition Action (A : Type) : Type := World -> Completion A * World.

Definition ret {A : Type} (a : A) : Action A := fun w => (Normal a, w).

Definition bind {A B : Type} (m : Action A) (k : A -> Action B) : Action B :=
  fun w =>
    match m w with
    | (Normal a, w') => k a w'
    | (Throw e, w') => (Throw e, w')
    end.

Definition throw {A : Type} (e : Error) : Action A := fun w => (Throw e, w).

(** A synchronous call that returns or throws. *)
Definition complete {A : Type} (c : Completion A) : Action A :=
  fun w => (c, w).

Definition tryCatch {A : Type} (body : Action A) (handler : Error -> Action A)
  : Action A :=
  fun w =>
    match body w with
    | (Normal a, w') => (Normal a, w')
    | (Throw e, w') => handler e w'
    end.

Definition setSubmitError (e : option Error) : Action unit :=
  fun w => (Normal tt, mkWorld e (calls w)).

(** An awaited call: it is recorded, then resolves or rejects. *)
Definition call {A : Type} (c : Call) (result : Completion A) : Action A :=
  fun w => (result, mkWorld (submitError w) (calls w ++ [c])).

Declare Scope action_scope.
Delimit Scope action_scope with action.
Notation "x <- m ;; k" := (bind m (fun x => k))
  (at level 61, m at next level, right associativity) : action_scope.

Section Component.

(** Imported by the component or given by its hooks, and not among the
    sources: [getContractByAddress] on the contracts of the store,
    [prepareVoteProposalData] on the web3 instance; [toString] and
    [parseInt] are the built-ins applied to the snapshot number and to the
    timestamp. *)
Variable getContractByAddress : string -> Completion Contract.
Variable signAndSendProposal : SignArguments -> Completion Signed.
Variable prepareVoteProposalData : DataToPrepare -> string.
Variable txSend :
  string -> string -> SponsorArguments -> TxArguments -> Completion unit.
Variable toString : Z -> string.
Variable parseInt : string -> JS.number.

Variable h : Hooks.

(** The prop [proposal.snapshotDraft]. *)
Variable snapshotDraft : option SnapshotDraft.

Definition isInProcess : bool :=
  Web3TxStatus_eqb (txStatus h) AWAITING_CONFIRM
  || Web3TxStatus_eqb (txStatus h) PENDING
  || Web3TxStatus_eqb (proposalSignAndSendStatus h) AWAITING_CONFIRM
  || Web3TxStatus_eqb (proposalSignAndSendStatus h) PENDING.

Definition isDone : bool :=
  Web3TxStatus_eqb (txStatus h) FULFILLED
  && Web3TxStatus_eqb (proposalSignAndSendStatus h) FULFILLED.

Definition isInProcessOrDone : bool :=
  isInProcess || isDone || txIsPromptOpen h.

Local Open Scope action_scope.

(** [handleSubmit] *)
Definition handleSubmit : Action unit :=
  tryCatch
    (address <-
       match daoRegistryAddress h with
       | Some a =>
           if JS.truthy (Some a) then ret a
           else throw (mkError "No DAO Registry address was found.")
       | None => throw (mkError "No DAO Registry address was found.")
       end ;;
     draft <-
       match snapshotDraft with
       | Some d => ret d
       | None => throw (mkError "No Snapshot draft was found.")
       end ;;
     contract <- complete (getContractByAddress (actionId draft)) ;;
     let signArguments :=
       mkSignArguments (payload (msg draft), timestamp (msg draft))
                       (contractAddress contract) SnapshotType_proposal in
     signed <-
       call (SignAndSendProposal signArguments)
            (signAndSendProposal signArguments) ;;
     let p := signed_payload (data signed) in
     let dataToPrepare :=
       mkDataToPrepare
         (mkPreparedPayload (signed_name p) (signed_body p) (choices p)
                            (toString (snapshot p)) (start p) (end_ p))
         (signature signed) (space (data signed))
         (parseInt (signed_timestamp (data signed))) in
     let sponsorArguments :=
       (address, idInDAO draft, prepareVoteProposalData dataToPrepare) in
     let txArguments :=
       mkTxArguments
         (match account h with
          | Some a => a
          | None => EmptyString
          end)
         (option_map fast (gasPrices h)) in
     call (TxSend "sponsorProposal" (instance_methods contract)
                  sponsorArguments txArguments)
          (txSend "sponsorProposal" (instance_methods contract)
                  sponsorArguments txArguments))
    (fun error => setSubmitError (Some error)).

(** The button: [disabled], [onClick] and what it shows. *)
Definition disabled : bool := isDisabled h || isInProcessOrDone.

Definition onClick : Action unit :=
  if isDisabled h || isInProcessOrDone then ret tt else handleSubmit.

Inductive ButtonLabel : Type :=
| LoaderLabel
| DoneLabel
| SponsorLabel.

Definition buttonLabel : ButtonLabel :=
  if isInProcess then LoaderLabel
  else if isDone then DoneLabel else SponsorLabel.

(** [renderSubmitStatus], and the status line, which is rendered only when
    [isInProcessOrDone]. *)
Inductive SubmitStatus : Type :=
| AwaitingConfirmation
| PendingMessages (url : string)
| ProposalSubmitted (url : string)
| NoStatus.

Definition renderSubmitStatus : SubmitStatus :=
  if Web3TxStatus_eqb (txStatus h) AWAITING_CONFIRM
     || Web3TxStatus_eqb (proposalSignAndSendStatus h) AWAITING_CONFIRM
  then AwaitingConfirmation
  else
    match txStatus h with
    | PENDING => PendingMessages (txEtherscanURL h)
    | FULFILLED => ProposalSubmitted (txEtherscanURL h)
    | _ => NoStatus
    end.

Definition statusLine : SubmitStatus :=
  if isInProcessOrDone then renderSubmitStatus else NoStatus.

End Component.

End SponsorAction.

(** ** Sample inputs *)

Module Samples.

Import Proposals UseDaoTotalUnits.

Local Open Scope string_scope.

(** Flags 3: EXISTS and SPONSORED; 7: also PROCESSED; 1: EXISTS alone. *)
Definition dp_sponsored : DaoProposal := mkDaoProposal "0xAdapter" 3.
Definition dp_processed : DaoProposal := mkDaoProposal "0xAdapter" 7.
Definition dp_exists : DaoProposal := mkDaoProposal "0xAdapter" 1.

Definition p_passed : ProposalData :=
  mkProposalData (Some (mkSnapshotProposal (Some "0xAbC1") (Some ["vote"])))
                 (Some dp_sponsored) (Some PASS) None.

Definition p_in_progress : ProposalData :=
  mkProposalData (Some (mkSnapshotProposal (Some "0xAbC2") (Some ["vote"])))
                 (Some dp_sponsored) (Some IN_PROGRESS) None.

Definition p_not_pass : ProposalData :=
  mkProposalData (Some (mkSnapshotProposal (Some "0xAbC3") (Some ["vote"])))
                 (Some dp_processed) (Some NOT_PASS) None.

Definition p_draft : ProposalData :=
  mkProposalData (Some (mkSnapshotProposal (Some "0xAbC4") None))
                 (Some dp_exists) None None.

Definition p_processed_no_state : ProposalData :=
  mkProposalData (Some (mkSnapshotProposal (Some "0xAbC5") None))
                 (Some dp_processed) None None.

Definition yes5_no3 : VotingResult :=
  mkVotingResult (mkVoteTally (JS.Number 5)) (mkVoteTally (JS.Number 3)).

(** Off-chain results for [p_in_progress], and for a proposal not listed. *)
Definition results_in_progress : list (string * VotingResult) :=
  [("0xabc2", yes5_no3)].
Definition results_other : list (string * VotingResult) :=
  [("0xffff", yes5_no3)].

(** The proposals are there, the off-chain results are still being fetched. *)
Definition hooks_results_pending : Hooks :=
  mkHooks [p_passed] FULFILLED None [] PENDING None None.

(** A bank holding 100 units in total, 60 of them with the guild. *)
Definition bank_100_60 : BankExtension :=
  mkBankExtension (fun account _ =>
    if String.eqb account TOTAL_ADDRESS_model then Normal 100 else Normal 60).

(** A bank whose total, 2^53 + 1, is not a JavaScript number. *)
Definition bank_large : BankExtension :=
  mkBankExtension (fun account _ =>
    if String.eqb account TOTAL_ADDRESS_model
    then Normal 9007199254740993 else Normal 0).

(** A bank whose reads throw. *)
Definition bank_failing : BankExtension :=
  mkBankExtension (fun _ _ => Throw (mkError "execution reverted")).

(** First render with the subgraph reported down. *)
Definition inputs_not_ok : Inputs :=
  mkInputs (Some "0xDA0") (Some bank_100_60) NOT_OK
           (mkLazyQuery false false None None).

Definition world0 : World := mkWorld initialState [].

(** A proposal known off-chain only, and one with a vote state but neither
    SPONSORED nor PROCESSED. *)
Definition p_no_record : ProposalData :=
  mkProposalData (Some (mkSnapshotProposal (Some "0xAbC6") None))
                 None None None.

Definition p_unflagged : ProposalData :=
  mkProposalData (Some (mkSnapshotProposal (Some "0xAbC2") (Some ["vote"])))
                 (Some dp_exists) (Some IN_PROGRESS) None.

(** In its grace period, nothing reported yet, and no Snapshot vote. *)
Definition p_grace_no_votes : ProposalData :=
  mkProposalData (Some (mkSnapshotProposal (Some "0xAbC7") (Some [])))
                 (Some dp_sponsored) (Some GRACE_PERIOD)
                 (Some (mkVotesData
                          (Some (mkOffchainVotes BURN_ADDRESS_zero)))).

Definition results_all : list (string * VotingResult) :=
  [("0xabc2", yes5_no3); ("0xabc3", yes5_no3); ("0xabc7", yes5_no3)].

Definition hooks_done : Hooks :=
  mkHooks [p_draft; p_passed] FULFILLED None results_all FULFILLED None None.

Definition hooks_no_proposals : Hooks :=
  mkHooks [] FULFILLED None [] STANDBY None None.

Definition hooks_results_failed : Hooks :=
  mkHooks [p_passed] FULFILLED None [] REJECTED
          (Some (mkError "Failed to fetch")) (Some (mkError "Wrong chain")).

(** The subgraph is fine and has replied with one DAO; has failed; is still
    loading. *)
Definition inputs_ok_data : Inputs :=
  mkInputs (Some "0xDA0") (Some bank_failing) OK
           (mkLazyQuery true false
              (Some (mkQueryData [mkTributeDao 100 40])) None).

Definition query_failed : LazyQuery :=
  mkLazyQuery true false None (Some (mkError "Network error")).

Definition inputs_ok_loading : Inputs :=
  mkInputs (Some "0xDA0") (Some bank_100_60) OK
           (mkLazyQuery true true None None).

(** The subgraph is reported down: the bank fails, and then answers. *)
Definition inputs_bank_failing : Inputs :=
  mkInputs (Some "0xDA0") (Some bank_failing) NOT_OK
           (mkLazyQuery true false None None).

Definition inputs_bank_answers : Inputs :=
  mkInputs (Some "0xDA0") (Some bank_100_60) NOT_OK
           (mkLazyQuery true false None None).

End Samples.

Module SponsorSamples.

Import UseDaoTotalUnits SponsorAction.

Local Open Scope string_scope.

Definition draft : SnapshotDraft :=
  mkSnapshotDraft "0xAdapter" "0xAbC4"
    (mkDraftMessage (mkDraftPayload "Join" "Please" "{}") "1600000000").

Definition adapter : Contract := mkContract "0xAdapter" "onboarding".

Definition signed : Signed :=
  mkSigned
    (mkSignedData (mkSignedPayload "Join" "Please" ["Yes"; "No"] 123 1 2)
                  "tribute" "1600000000")
    "0xsignature".

Definition getContractByAddress_found (address : string)
  : Completion Contract :=
  if String.eqb address "0xAdapter" then Normal adapter
  else Throw (mkError "Contract not found").

Definition signAndSendProposal_signs (_ : SignArguments) : Completion Signed :=
  Normal signed.

Definition signAndSendProposal_rejects (_ : SignArguments)
  : Completion Signed :=
  Throw (mkError "User denied message signature").

Definition prepareVoteProposalData_hex (_ : DataToPrepare) : string :=
  "0xdata".

Definition txSend_ok (_ _ : string) (_ : SponsorArguments) (_ : TxArguments)
  : Completion unit :=
  Normal tt.

Definition toString_decimal (_ : Z) : string := "123".

Definition parseInt_decimal (_ : string) : JS.number := JS.Number 1600000000.

Definition hooks_idle : SponsorAction.Hooks :=
  SponsorAction.mkHooks (Some "0xDA0") (Some "0xMember")
    (OtherStatus "STANDBY") false "" (OtherStatus "STANDBY") false
    (Some (mkGasPrices "42")).

Definition hooks_signing : SponsorAction.Hooks :=
  SponsorAction.mkHooks (Some "0xDA0") (Some "0xMember")
    (OtherStatus "STANDBY") false "" SponsorAction.PENDING false None.

Definition hooks_no_address : SponsorAction.Hooks :=
  SponsorAction.mkHooks None (Some "0xMember")
    (OtherStatus "STANDBY") false "" (OtherStatus "STANDBY") false None.

Definition world0 : SponsorAction.World := SponsorAction.mkWorld None [].

Definition hooks_done : SponsorAction.Hooks :=
  SponsorAction.mkHooks (Some "0xDA0") (Some "0xMember")
    SponsorAction.FULFILLED false "https://etherscan.io/tx/0x1"
    SponsorAction.FULFILLED false None.

Definition world_with_error : SponsorAction.World :=
  SponsorAction.mkWorld (Some (mkError "User denied message signature")) [].

End SponsorSamples.

(** * Properties of JavaScript numbers *)

Section NumberFacts.

Import JS.

Lemma digits2_pos_size m : digits2_pos m = Pos.size m.
Proof. induction m; simpl; congruence. Qed.

Lemma digits2_pos_lower m : 2 ^ (Z.pos (digits2_pos m) - 1) <= Z.pos m.
Proof.
  rewrite digits2_pos_size.
  pose proof (Pos.size_le m) as Hle.
  apply Pos2Z.pos_le_pos in Hle. rewrite Pos2Z.inj_pow in Hle.
  replace (Z.pos (Pos.size m)) with (Z.succ (Z.pos (Pos.size m) - 1)) in Hle
    by lia.
  rewrite Z.pow_succ_r in Hle by lia. lia.
Qed.

Lemma digits2_pos_safe m :
  Z.pos m <= MAX_SAFE_INTEGER -> Z.pos (digits2_pos m) <= 53.
Proof.
  intros Hm. pose proof (digits2_pos_lower m) as Hlow.
  destruct (Z_le_gt_dec (Z.pos (digits2_pos m)) 53) as [|Hgt]; [assumption|].
  exfalso.
  assert (2 ^ 53 <= 2 ^ (Z.pos (digits2_pos m) - 1))
    by (apply Z.pow_le_mono_r; lia).
  change (2 ^ 53) with 9007199254740992 in *.
  unfold MAX_SAFE_INTEGER in Hm. lia.
Qed.

Lemma iter_xO_value m k : Z.pos (Pos.iter xO m k) = Z.pos m * 2 ^ Z.pos k.
Proof.
  induction k as [|k IH] using Pos.peano_ind.
  - simpl. lia.
  - rewrite Pos.iter_succ, Pos2Z.inj_succ, Z.pow_succ_r by lia.
    rewrite Pos2Z.inj_xO, IH. lia.
Qed.

Lemma iter_xO_digits m k :
  digits2_pos (Pos.iter xO m k) = (digits2_pos m + k)%positive.
Proof.
  induction k as [|k IH] using Pos.peano_ind.
  - simpl. now rewrite Pos.add_1_r.
  - rewrite Pos.iter_succ. simpl. rewrite IH. now rewrite Pos.add_succ_r.
Qed.

(** A mantissa of 53 bits within the exponent range is kept as it is. *)
Lemma binary_round_aux_normal s m e :
  Z.pos (digits2_pos m) = 53 ->
  -1074 <= e <= 971 ->
  binary_round_aux prec emax s (Z.pos m) e loc_Exact = S754_finite s m e.
Proof.
  intros Hd He.
  assert (Hshift : fexp prec emax (Zdigits2 (Z.pos m) + e) - e = 0).
  { unfold fexp, emin, prec, emax. cbn [Zdigits2]. rewrite Hd. lia. }
  unfold binary_round_aux, shr_fexp.
  rewrite Hshift.
  cbn [shr shr_record_of_loc shr_m loc_of_shr_record round_nearest_even].
  rewrite Hshift. cbn [shr shr_record_of_loc shr_m].
  unfold emax, prec.
  destruct (Z.leb_spec e (1024 - 53)); [reflexivity | lia].
Qed.

Lemma binary_round_exact s m :
  Z.pos m <= MAX_SAFE_INTEGER ->
  integerValue (binary_round prec emax s m 0) = Some (cond_Zopp s (Z.pos m)).
Proof.
  intros Hm. pose proof (digits2_pos_safe m Hm) as Hd.
  unfold binary_round, shl_align.
  assert (Hf : fexp prec emax (Z.pos (digits2_pos m) + 0)
               = Z.pos (digits2_pos m) - 53).
  { unfold fexp, emin, prec, emax. lia. }
  rewrite Hf.
  destruct (Z.pos (digits2_pos m) - 53 - 0) as [|k|k] eqn:Hk; try lia.
  - rewrite binary_round_aux_normal by lia.
    unfold integerValue.
    change (0 <=? 0) with true. cbv iota. f_equal. f_equal. lia.
  - rewrite binary_round_aux_normal.
    + unfold integerValue.
      replace (Z.pos (digits2_pos m) - 53) with (Z.neg k) by lia.
      change (0 <=? Z.neg k) with false. cbv iota.
      change (- Z.neg k) with (Z.pos k).
      rewrite iter_xO_value.
      rewrite Z.mod_mul by (apply Z.pow_nonzero; lia).
      rewrite Z.eqb_refl.
      rewrite Z.div_mul by (apply Z.pow_nonzero; lia).
      reflexivity.
    + rewrite iter_xO_digits, Pos2Z.inj_add. lia.
    + lia.
Qed.

(** [Number] is exact on the safe integers. *)
Lemma Number_exact z :
  Z.abs z <= MAX_SAFE_INTEGER -> integerValue (Number z) = Some z.
Proof.
  intros Hz. destruct z as [|m|m]; [reflexivity| |].
  - apply (binary_round_exact false m). simpl in Hz; lia.
  - apply (binary_round_exact true m). simpl in Hz; lia.
Qed.

Lemma shr_1_m mrs : 0 <= shr_m mrs -> shr_m (shr_1 mrs) = Z.div2 (shr_m mrs).
Proof.
  destruct mrs as [m r s]. destruct m as [|[p|p|]|p]; simpl; intros H;
    try reflexivity; lia.
Qed.

Lemma iter_shr_1_m p : forall mrs,
  0 <= shr_m mrs ->
  shr_m (iter_pos shr_1 p mrs) = shr_m mrs / 2 ^ Z.pos p.
Proof.
  assert (Hpow : forall q, 0 < 2 ^ Z.pos q)
    by (intros; apply Z.pow_pos_nonneg; lia).
  induction p as [p IH|p IH|]; intros mrs Hm; cbn [iter_pos].
  - assert (H1 : 0 <= shr_m (shr_1 mrs)).
    { rewrite shr_1_m, Z.div2_div by assumption. apply Z.div_pos; lia. }
    assert (H2 : 0 <= shr_m (iter_pos shr_1 p (shr_1 mrs))).
    { rewrite IH by assumption. apply Z.div_pos; [assumption|apply Hpow]. }
    rewrite IH, IH, shr_1_m, Z.div2_div by assumption.
    pose proof (Hpow p).
    rewrite !Z.div_div by lia.
    f_equal. rewrite Pos2Z.inj_xI.
    replace (2 * Z.pos p + 1) with (Z.succ (Z.pos p + Z.pos p)) by lia.
    rewrite Z.pow_succ_r, Z.pow_add_r by lia. ring.
  - assert (H2 : 0 <= shr_m (iter_pos shr_1 p mrs)).
    { rewrite IH by assumption. apply Z.div_pos; [assumption|apply Hpow]. }
    rewrite IH, IH by assumption.
    pose proof (Hpow p).
    rewrite !Z.div_div by lia.
    f_equal. rewrite <- Z.pow_add_r by lia. f_equal. lia.
  - rewrite shr_1_m, Z.div2_div by assumption. reflexivity.
Qed.

Lemma shr_m_record_of_loc m l : shr_m (shr_record_of_loc m l) = m.
Proof. destruct l as [|[]]; reflexivity. Qed.

(** Shifting to the exponent of the format keeps a positive mantissa
    positive. *)
Lemma shr_fexp_positive m e l :
  -1074 <= e ->
  0 < shr_m (fst (shr_fexp prec emax (Z.pos m) e l))
  /\ -1074 <= snd (shr_fexp prec emax (Z.pos m) e l).
Proof.
  intros He. unfold shr_fexp, shr.
  destruct (fexp prec emax (Zdigits2 (Z.pos m) + e) - e) as [|n|n] eqn:Hn;
    cbn [fst snd]; rewrite ?shr_m_record_of_loc; try (split; lia).
  unfold fexp, emin, prec, emax in Hn. cbn [Zdigits2] in Hn.
  split; [|lia].
  rewrite iter_shr_1_m by (rewrite shr_m_record_of_loc; lia).
  rewrite shr_m_record_of_loc.
  pose proof (digits2_pos_lower m) as Hlow.
  assert (Hle : 2 ^ Z.pos n <= 2 ^ (Z.pos (digits2_pos m) - 1))
    by (apply Z.pow_le_mono_r; lia).
  apply Z.div_str_pos. split; [apply Z.pow_pos_nonneg; lia | lia].
Qed.

Lemma round_nearest_even_positive m l : 0 < m -> 0 < round_nearest_even m l.
Proof.
  intros Hm. destruct l as [|[]]; simpl; try lia.
  destruct (Z.even m); lia.
Qed.

(** Rounding a positive mantissa gives a finite value or an infinity, of the
    sign asked for: never a zero. *)
Lemma binary_round_aux_sign s m e l :
  -1074 <= e ->
  (exists m' e',
     binary_round_aux prec emax s (Z.pos m) e l = S754_finite s m' e')
  \/ binary_round_aux prec emax s (Z.pos m) e l = S754_infinity s.
Proof.
  intros He. unfold binary_round_aux.
  destruct (shr_fexp_positive m e l He) as [Hm1 He1].
  destruct (shr_fexp prec emax (Z.pos m) e l) as [mrs1 e1].
  cbn [fst snd] in *.
  pose proof (round_nearest_even_positive
                (shr_m mrs1) (loc_of_shr_record mrs1) Hm1) as Hr.
  destruct (round_nearest_even (shr_m mrs1) (loc_of_shr_record mrs1))
    as [|r|r]; try lia.
  destruct (shr_fexp_positive r e1 loc_Exact He1) as [Hm2 _].
  destruct (shr_fexp prec emax (Z.pos r) e1 loc_Exact) as [mrs2 e2].
  cbn [fst snd] in *.
  destruct (shr_m mrs2) as [|m2|m2]; try lia.
  destruct (e2 <=? emax - prec); [left; eauto | right; reflexivity].
Qed.

Lemma binary_round_sign s m :
  (exists m' e', binary_round prec emax s m 0 = S754_finite s m' e')
  \/ binary_round prec emax s m 0 = S754_infinity s.
Proof.
  unfold binary_round, shl_align.
  assert (Hf : -1074 <= fexp prec emax (Z.pos (digits2_pos m) + 0))
    by (unfold fexp, emin, prec, emax; lia).
  destruct (fexp prec emax (Z.pos (digits2_pos m) + 0) - 0) as [|k|k];
    apply binary_round_aux_sign; lia.
Qed.

(** [Number] keeps the sign of an integer of any size. *)
Lemma Number_nonnegative z : 0 <= z -> isNonNegative (Number z) = true.
Proof.
  intros Hz. destruct z as [|m|m]; [reflexivity| |lia].
  unfold Number, binary_normalize.
  destruct (binary_round_sign false m) as [(m' & e' & ->) | ->]; reflexivity.
Qed.

Lemma Number_negative z : z < 0 -> isNegative (Number z) = true.
Proof.
  intros Hz. destruct z as [|m|m]; try lia.
  unfold Number, binary_normalize.
  destruct (binary_round_sign true m) as [(m' & e' & ->) | ->]; reflexivity.
Qed.

Lemma digits2_pos_upper m : Z.pos m < 2 ^ Z.pos (digits2_pos m).
Proof.
  rewrite digits2_pos_size.
  pose proof (Pos.size_gt m) as Hgt.
  apply Pos2Z.pos_lt_pos in Hgt. now rewrite Pos2Z.inj_pow in Hgt.
Qed.

(** The shape of [Number] on a safe integer: the mantissa is the integer
    shifted to 53 bits. *)
Lemma binary_round_safe s m :
  Z.pos m <= MAX_SAFE_INTEGER ->
  exists mz,
    binary_round prec emax s m 0
    = S754_finite s mz (Z.pos (digits2_pos m) - 53)
    /\ Z.pos mz = Z.pos m * 2 ^ (53 - Z.pos (digits2_pos m)).
Proof.
  intros Hm. pose proof (digits2_pos_safe m Hm) as Hd.
  unfold binary_round, shl_align.
  assert (Hf : fexp prec emax (Z.pos (digits2_pos m) + 0)
               = Z.pos (digits2_pos m) - 53).
  { unfold fexp, emin, prec, emax. lia. }
  rewrite Hf.
  destruct (Z.pos (digits2_pos m) - 53 - 0) as [|k|k] eqn:Hk; try lia.
  - exists m. rewrite binary_round_aux_normal by lia.
    replace (Z.pos (digits2_pos m) - 53) with 0 by lia.
    replace (53 - Z.pos (digits2_pos m)) with 0 by lia.
    split; [reflexivity | lia].
  - exists (Pos.iter xO m k). rewrite binary_round_aux_normal.
    + replace (53 - Z.pos (digits2_pos m)) with (Z.pos k) by lia.
      split; [reflexivity | apply iter_xO_value].
    + rewrite iter_xO_digits, Pos2Z.inj_add. lia.
    + lia.
Qed.

Lemma compare_magnitudes ma mb mza mzb :
  Z.pos mza = Z.pos ma * 2 ^ (53 - Z.pos (digits2_pos ma)) ->
  Z.pos mzb = Z.pos mb * 2 ^ (53 - Z.pos (digits2_pos mb)) ->
  match Z.pos (digits2_pos ma) - 53 ?= Z.pos (digits2_pos mb) - 53 with
  | Lt => Lt
  | Gt => Gt
  | Eq => Pos.compare_cont Eq mza mzb
  end = (ma ?= mb)%positive.
Proof.
  intros Ha Hb.
  pose proof (digits2_pos_lower ma) as Hla.
  pose proof (digits2_pos_lower mb) as Hlb.
  pose proof (digits2_pos_upper ma) as Hua.
  pose proof (digits2_pos_upper mb) as Hub.
  destruct (Z.compare_spec (Z.pos (digits2_pos ma) - 53)
                           (Z.pos (digits2_pos mb) - 53)) as [He|He|He].
  - change (Pos.compare_cont Eq mza mzb) with (Z.pos mza ?= Z.pos mzb).
    rewrite Ha, Hb.
    replace (Z.pos (digits2_pos mb)) with (Z.pos (digits2_pos ma)) by lia.
    rewrite <- Zmult_compare_compat_r; [reflexivity|].
    apply Z.lt_gt. apply Z.pow_pos_nonneg; [lia|].
    pose proof (Pos2Z.is_pos (digits2_pos ma)).
    destruct (Z_le_gt_dec (Z.pos (digits2_pos ma)) 53); [lia|].
    exfalso.
    rewrite Z.pow_neg_r in Ha by lia. lia.
  - symmetry. apply Pos.compare_lt_iff. apply Pos2Z.pos_lt_pos.
    assert (2 ^ Z.pos (digits2_pos ma) <= 2 ^ (Z.pos (digits2_pos mb) - 1))
      by (apply Z.pow_le_mono_r; lia).
    lia.
  - symmetry. apply Pos.compare_gt_iff. apply Pos2Z.pos_lt_pos.
    assert (2 ^ Z.pos (digits2_pos mb) <= 2 ^ (Z.pos (digits2_pos ma) - 1))
      by (apply Z.pow_le_mono_r; lia).
    lia.
Qed.

(** On safe integers the comparison of numbers is the comparison of
    integers. *)
Lemma Number_compare a b :
  Z.abs a <= MAX_SAFE_INTEGER ->
  Z.abs b <= MAX_SAFE_INTEGER ->
  SFcompare (Number a) (Number b) = Some (a ?= b).
Proof.
  intros Ha Hb. unfold Number, binary_normalize.
  destruct a as [|ma|ma], b as [|mb|mb]; try reflexivity;
    repeat match goal with
    | |- context [binary_round prec emax ?s ?m 0] =>
        let mz := fresh "mz" in
        let Hr := fresh "Hr" in
        let Hv := fresh "Hv" in
        destruct (binary_round_safe s m) as (mz & Hr & Hv);
        [simpl in Ha, Hb; lia | rewrite Hr; clear Hr]
    end; try reflexivity.
  - cbn [SFcompare]. f_equal. now apply compare_magnitudes.
  - cbn [SFcompare]. f_equal. cbn [Z.compare].
    rewrite <- (compare_magnitudes ma mb mz mz0) by assumption.
    destruct (Z.pos (digits2_pos ma) - 53 ?= Z.pos (digits2_pos mb) - 53);
      reflexivity.
Qed.

Lemma gt_Number a b :
  Z.abs a <= MAX_SAFE_INTEGER ->
  Z.abs b <= MAX_SAFE_INTEGER ->
  gt (Number a) (Number b) = (b <? a).
Proof.
  intros Ha Hb. unfold gt, SFltb. rewrite Number_compare by assumption.
  unfold Z.ltb. reflexivity.
Qed.

Lemma gt_nan x : gt S754_nan x = false /\ gt x S754_nan = false.
Proof. unfold gt, SFltb. destruct x as [| |  |[] ]; split; reflexivity. Qed.

End NumberFacts.

(** * Properties of the classification *)

Section ProposalsFacts.

Import Proposals.

Variable proposalHasFlag : ProposalFlag -> Z -> bool.
Variable normalizeString : string -> string.
Variable BURN_ADDRESS : string.
Variable includeProposalsExistingOnlyOffchain : bool.

Local Abbreviation classifyProposal :=
  (Proposals.classifyProposal proposalHasFlag normalizeString BURN_ADDRESS
     includeProposalsExistingOnlyOffchain).
Local Abbreviation classify :=
  (Proposals.classify proposalHasFlag normalizeString BURN_ADDRESS
     includeProposalsExistingOnlyOffchain).
Local Abbreviation decision :=
  (Proposals.decision proposalHasFlag normalizeString BURN_ADDRESS
     includeProposalsExistingOnlyOffchain).
Local Abbreviation findOffchainResult :=
  (Proposals.findOffchainResult normalizeString).
Local Abbreviation offchainResultNotYetSubmitted :=
  (Proposals.offchainResultNotYetSubmitted proposalHasFlag BURN_ADDRESS).
Local Abbreviation classificationEffect :=
  (Proposals.classificationEffect proposalHasFlag normalizeString BURN_ADDRESS
     includeProposalsExistingOnlyOffchain).

Ltac split_branches :=
  repeat match goal with
         | |- context [match ?x with _ => _ end] => destruct x eqn:?
         end.

(** The callback pushes to the list [decision] names, or leaves the
    accumulator alone. *)
Lemma classifyProposal_decision results acc p :
  classifyProposal results acc p =
  match decision results p with
  | Some b => push b acc p
  | None => acc
  end.
Proof.
  unfold Proposals.classifyProposal, Proposals.decision.
  destruct (daoProposal p) as [dp|]; [|reflexivity].
  destruct (daoProposalVotingState p) as [vs|]; cbv zeta.
  - destruct (findOffchainResult results p) as [r|];
      destruct (offchainResultNotYetSubmitted p dp), (noSnapshotVotes p),
        (proposalHasFlag SPONSORED (flags dp)),
        (proposalHasFlag PROCESSED (flags dp));
      try destruct (didPassSimpleMajority r);
      destruct vs; reflexivity.
  - destruct includeProposalsExistingOnlyOffchain; [reflexivity|].
    destruct (proposalHasFlag EXISTS (flags dp)); reflexivity.
Qed.

Lemma bucket_push b b' fp p :
  bucket b (push b' fp p) =
  if Bucket_eqb b' b then bucket b fp ++ [p] else bucket b fp.
Proof. destruct b, b'; reflexivity. Qed.

Lemma Bucket_eqb_eq a b : Bucket_eqb a b = true <-> a = b.
Proof. destruct a, b; simpl; split; congruence. Qed.

(** Each list of the result is the sublist of the proposals decided for it,
    in the order of the input. *)
Lemma bucket_fold results b ps acc :
  bucket b (fold_left (classifyProposal results) ps acc) =
  bucket b acc ++
  filter (fun p => match decision results p with
                   | Some b' => Bucket_eqb b' b
                   | None => false
                   end) ps.
Proof.
  revert acc; induction ps as [|p ps IH]; intros acc; simpl.
  - now rewrite app_nil_r.
  - rewrite IH, classifyProposal_decision.
    destruct (decision results p) as [b'|]; [|reflexivity].
    rewrite bucket_push.
    destruct (Bucket_eqb b' b); [|reflexivity].
    now rewrite <- app_assoc.
Qed.

Lemma In_bucket_classify results ps b p :
  In p (bucket b (classify results ps)) <->
  In p ps /\ decision results p = Some b.
Proof.
  unfold Proposals.classify. rewrite bucket_fold.
  destruct b; simpl; rewrite filter_In;
    (split; intros [Hin Hd]; split; try assumption;
     [ destruct (decision results p) as [b'|]; [|discriminate];
       apply Bucket_eqb_eq in Hd; now subst
     | rewrite Hd; reflexivity ]).
Qed.

Lemma findOffchainResult_unmatched results p :
  (forall entry, In entry results ->
     normalizeString (fst entry) <> normalizeString (idInDAO_or_empty p)) ->
  findOffchainResult results p = None.
Proof.
  intros Hno. unfold Proposals.findOffchainResult.
  destruct (find _ results) as [entry|] eqn:Hfind; [|reflexivity].
  apply find_some in Hfind. destruct Hfind as [Hin Heq].
  apply String.eqb_eq in Heq. now apply Hno in Hin.
Qed.

Lemma decision_unique results ps b1 b2 p :
  In p (bucket b1 (classify results ps)) ->
  In p (bucket b2 (classify results ps)) ->
  b1 = b2.
Proof.
  rewrite !In_bucket_classify. intros [_ H1] [_ H2]. congruence.
Qed.

(** C7: a proposal with an on-chain record, vote state PASS and the flag
    SPONSORED or PROCESSED is pushed to [passedProposals], and to no other
    list, whatever the off-chain results hold. *)
Theorem passed_when_PASS_and_sponsored_or_processed results ps p dp :
  daoProposal p = Some dp ->
  daoProposalVotingState p = Some PASS ->
  proposalHasFlag SPONSORED (flags dp) = true
  \/ proposalHasFlag PROCESSED (flags dp) = true ->
  In p ps ->
  (forall acc, classifyProposal results acc p = push Passed acc p)
  /\ In p (passedProposals (classify results ps))
  /\ (forall b, In p (bucket b (classify results ps)) -> b = Passed).
Proof.
  intros Hdp Hvs Hflag Hin.
  assert (Hd : decision results p = Some Passed).
  { unfold Proposals.decision. rewrite Hdp, Hvs. cbv zeta. simpl.
    destruct Hflag as [-> | ->]; [reflexivity | now rewrite orb_true_r]. }
  split; [|split].
  - intros acc. now rewrite classifyProposal_decision, Hd.
  - apply (In_bucket_classify results ps Passed p). now split.
  - intros b Hb. apply In_bucket_classify in Hb. destruct Hb as [_ Hb].
    congruence.
Qed.

(** C8: a proposal with an on-chain record and no recorded vote state is in
    [nonsponsoredProposals] exactly when the option
    [includeProposalsExistingOnlyOffchain] is set or it carries EXISTS; it is
    in no other list, so otherwise in none. *)
Theorem nonsponsored_iff_include_or_EXISTS results ps p dp :
  daoProposal p = Some dp ->
  daoProposalVotingState p = None ->
  In p ps ->
  (In p (nonsponsoredProposals (classify results ps)) <->
   includeProposalsExistingOnlyOffchain = true
   \/ proposalHasFlag EXISTS (flags dp) = true)
  /\ (forall b, In p (bucket b (classify results ps)) -> b = Nonsponsored).
Proof.
  intros Hdp Hvs Hin.
  assert (Hd : decision results p =
               if includeProposalsExistingOnlyOffchain
                  || proposalHasFlag EXISTS (flags dp)
               then Some Nonsponsored else None).
  { unfold Proposals.decision. now rewrite Hdp, Hvs. }
  split.
  - rewrite (In_bucket_classify results ps Nonsponsored p), Hd.
    rewrite <- orb_true_iff.
    destruct (includeProposalsExistingOnlyOffchain
              || proposalHasFlag EXISTS (flags dp));
      intuition congruence.
  - intros b Hb. apply In_bucket_classify in Hb. destruct Hb as [_ Hb].
    rewrite Hd in Hb.
    destruct (includeProposalsExistingOnlyOffchain
              || proposalHasFlag EXISTS (flags dp)); congruence.
Qed.

(** C10: a proposal with an on-chain record and a vote state, not in
    [passedProposals], whose normalized identifier matches no entry of the
    off-chain results, is in none of the four lists. *)
Theorem unmatched_offchain_result_leaves_unplaced results ps p dp vs :
  daoProposal p = Some dp ->
  daoProposalVotingState p = Some vs ->
  ~ In p (passedProposals (classify results ps)) ->
  (forall entry, In entry results ->
     normalizeString (fst entry) <> normalizeString (idInDAO_or_empty p)) ->
  forall b, ~ In p (bucket b (classify results ps)).
Proof.
  intros Hdp Hvs Hnot Hno b Hb.
  pose proof Hb as Hb'. apply In_bucket_classify in Hb'.
  destruct Hb' as [Hin Hd].
  unfold Proposals.decision in Hd. rewrite Hdp, Hvs in Hd. cbv zeta in Hd.
  rewrite (findOffchainResult_unmatched results p Hno) in Hd.
  destruct (proposalHasVotingState PASS vs
            && (proposalHasFlag SPONSORED (flags dp)
                || proposalHasFlag PROCESSED (flags dp))); [|discriminate].
  injection Hd as <-. exact (Hnot Hb).
Qed.

(** C1, as the code has it: with an on-chain record, vote state GRACE_PERIOD
    or IN_PROGRESS and the flag SPONSORED, a proposal for which the off-chain
    results hold no entry is in none of the lists; once they hold one, it is
    in [votingProposals], unless the result is not yet submitted and the
    proposal has no Snapshot votes or the result did not pass. *)
Theorem voting_needs_offchain_result results ps p dp vs :
  daoProposal p = Some dp ->
  daoProposalVotingState p = Some vs ->
  vs = GRACE_PERIOD \/ vs = IN_PROGRESS ->
  proposalHasFlag SPONSORED (flags dp) = true ->
  In p ps ->
  (findOffchainResult results p = None ->
   forall b, ~ In p (bucket b (classify results ps)))
  /\ (forall r, findOffchainResult results p = Some r ->
        offchainResultNotYetSubmitted p dp
        && (noSnapshotVotes p || negb (didPassSimpleMajority r)) = false ->
        In p (votingProposals (classify results ps))).
Proof.
  intros Hdp Hvs Hstate Hsp Hin. split.
  - intros Hnone b Hb. apply In_bucket_classify in Hb.
    destruct Hb as [_ Hd].
    unfold Proposals.decision in Hd.
    rewrite Hdp, Hvs, Hnone, Hsp in Hd.
    destruct Hstate; subst vs; discriminate.
  - intros r Hsome Hok.
    apply (In_bucket_classify results ps Voting p). split; [assumption|].
    unfold Proposals.decision. rewrite Hdp, Hvs, Hsome, Hsp. cbv zeta.
    destruct (offchainResultNotYetSubmitted p dp), (noSnapshotVotes p),
      (didPassSimpleMajority r); simpl in Hok; try discriminate;
      destruct Hstate; subst vs; reflexivity.
Qed.

(** C9, as the code has it: a proposal that carries PROCESSED and has a
    recorded vote state is never in [nonsponsoredProposals], under any
    configuration. *)
Theorem processed_with_vote_state_never_nonsponsored results ps p dp vs :
  daoProposal p = Some dp ->
  proposalHasFlag PROCESSED (flags dp) = true ->
  daoProposalVotingState p = Some vs ->
  ~ In p (nonsponsoredProposals (classify results ps)).
Proof.
  intros Hdp _ Hvs Hb.
  apply (In_bucket_classify results ps Nonsponsored p) in Hb.
  destruct Hb as [_ Hd].
  unfold Proposals.decision in Hd. rewrite Hdp, Hvs in Hd. cbv zeta in Hd.
  repeat match type of Hd with
         | context [if ?c then _ else _] => destruct c
         | context [match ?c with _ => _ end] => destruct c
         end; discriminate.
Qed.

(** C4: a proposal found in one of the four lists is found in that list
    only. *)
Theorem placed_in_exactly_one_bucket results ps p b1 :
  In p (bucket b1 (classify results ps)) ->
  forall b2, In p (bucket b2 (classify results ps)) <-> b2 = b1.
Proof.
  intros H1 b2. split.
  - intros H2. exact (decision_unique results ps b2 b1 p H2 H1).
  - intros ->. exact H1.
Qed.

(** C3, as the code has it: the effect computes the four lists exactly when
    the fetch of the proposals is FULFILLED, and the status of the off-chain
    results plays no part in it; what a pending fetch of either kind holds
    is the loading flag. *)
Theorem classification_runs_iff_proposals_fulfilled (h : Hooks) :
  (classificationEffect h <> None <-> proposalsStatus h = FULFILLED)
  /\ (forall s,
        classificationEffect
          (mkHooks (proposals h) (proposalsStatus h) (proposalsError h)
                   (offchainVotingResults h) s
                   (offchainVotingResultsError h) (defaultChainError h))
        = classificationEffect h)
  /\ (forall proposalsForVotingResults,
        isTerminal (proposalsStatus h) = false
        \/ offchainVotingResultsStatus h = PENDING ->
        isLoading h proposalsForVotingResults = true).
Proof.
  split; [|split].
  - unfold Proposals.classificationEffect.
    destruct (proposalsStatus h); simpl; split; congruence.
  - intros s. reflexivity.
  - intros pfvr [Hp | Ho]; unfold isLoading.
    + destruct (proposalsStatus h); try discriminate; reflexivity.
    + rewrite Ho. simpl. now rewrite orb_true_r.
Qed.

(** X3: the loop pushes each proposal at most once: the four lists
    together are no longer than the input. *)
Lemma classify_total_length results ps :
  (List.length (failedProposals (classify results ps))
   + List.length (nonsponsoredProposals (classify results ps))
   + List.length (passedProposals (classify results ps))
   + List.length (votingProposals (classify results ps))
   <= List.length ps)%nat.
Proof.
  unfold Proposals.classify.
  assert (H : forall acc,
    (List.length (failedProposals (fold_left (classifyProposal results) ps acc))
     + List.length (nonsponsoredProposals
                      (fold_left (classifyProposal results) ps acc))
     + List.length (passedProposals
                      (fold_left (classifyProposal results) ps acc))
     + List.length (votingProposals
                      (fold_left (classifyProposal results) ps acc))
     <= List.length (failedProposals acc)
        + List.length (nonsponsoredProposals acc)
        + List.length (passedProposals acc)
        + List.length (votingProposals acc)
        + List.length ps)%nat).
  { induction ps as [|p ps IH]; intros acc; simpl; [lia|].
    etransitivity; [apply IH|].
    rewrite classifyProposal_decision.
    destruct (decision results p) as [[]|]; simpl;
      rewrite ?length_app; simpl; lia. }
  specialize (H emptyFilteredProposals). simpl in H. exact H.
Qed.

(** ** Further properties of the classification loop *)

Lemma decision_of_singleton results b p :
  match bucket b (classify results [p]) with
  | [] => false
  | _ :: _ => true
  end
  = match decision results p with
    | Some b' => Bucket_eqb b' b
    | None => false
    end.
Proof.
  unfold Proposals.classify. rewrite bucket_fold. simpl.
  destruct (decision results p) as [b'|]; [|now destruct b].
  destruct (Bucket_eqb b' b); now destruct b.
Qed.

(** X1: each of the four lists holds, in the order of the input, exactly
    the proposals that land in it when classified alone. *)
Theorem classify_bucket_is_filter results ps b :
  bucket b (classify results ps) =
  filter (fun p => match bucket b (classify results [p]) with
                   | [] => false
                   | _ :: _ => true
                   end) ps.
Proof.
  unfold Proposals.classify at 1. rewrite bucket_fold.
  replace (bucket b emptyFilteredProposals) with (@nil ProposalData)
    by now destruct b.
  simpl. apply filter_ext. intros p.
  symmetry. apply decision_of_singleton.
Qed.

(** X2: classifying a concatenation gives, list by list, the concatenation
    of the two classifications. *)
Theorem classify_app results ps1 ps2 b :
  bucket b (classify results (ps1 ++ ps2)) =
  bucket b (classify results ps1) ++ bucket b (classify results ps2).
Proof.
  unfold Proposals.classify. rewrite !bucket_fold, filter_app.
  now destruct b.
Qed.

(** X4: a proposal without an on-chain record is in none of the lists. *)
Theorem no_dao_proposal_unplaced results ps p b :
  daoProposal p = None ->
  ~ In p (bucket b (classify results ps)).
Proof.
  intros Hdp Hb. apply In_bucket_classify in Hb. destruct Hb as [_ Hd].
  unfold Proposals.decision in Hd. rewrite Hdp in Hd. discriminate.
Qed.

(** X5: [passedProposals] holds exactly the input proposals with an on-chain
    record, vote state PASS and the flag SPONSORED or PROCESSED. *)
Theorem passed_iff results ps p :
  In p (passedProposals (classify results ps)) <->
  In p ps
  /\ exists dp, daoProposal p = Some dp
       /\ daoProposalVotingState p = Some PASS
       /\ (proposalHasFlag SPONSORED (flags dp) = true
           \/ proposalHasFlag PROCESSED (flags dp) = true).
Proof.
  rewrite (In_bucket_classify results ps Passed p).
  split.
  - intros [Hin Hd]. split; [assumption|].
    unfold Proposals.decision in Hd.
    destruct (daoProposal p) as [dp|]; [|discriminate].
    exists dp. split; [reflexivity|].
    destruct (daoProposalVotingState p) as [vs|]; cbv zeta in Hd.
    + destruct (proposalHasVotingState PASS vs
                && (proposalHasFlag SPONSORED (flags dp)
                    || proposalHasFlag PROCESSED (flags dp))) eqn:Hc.
      * apply andb_true_iff in Hc. destruct Hc as [Hs Hf].
        apply orb_true_iff in Hf. destruct vs; try discriminate. now split.
      * repeat match type of Hd with
               | context [if ?c then _ else _] => destruct c
               | context [match ?c with _ => _ end] => destruct c
               end; discriminate.
    + destruct (includeProposalsExistingOnlyOffchain
                || proposalHasFlag EXISTS (flags dp)); discriminate.
  - intros [Hin (dp & Hdp & Hvs & Hf)]. split; [assumption|].
    unfold Proposals.decision. rewrite Hdp, Hvs. cbv zeta. simpl.
    destruct Hf as [-> | ->]; [reflexivity | now rewrite orb_true_r].
Qed.

(** X6: a proposal with a vote state that carries neither SPONSORED nor
    PROCESSED is in none of the lists. *)
Theorem unflagged_with_vote_state_unplaced results ps p dp vs b :
  daoProposal p = Some dp ->
  daoProposalVotingState p = Some vs ->
  proposalHasFlag SPONSORED (flags dp) = false ->
  proposalHasFlag PROCESSED (flags dp) = false ->
  ~ In p (bucket b (classify results ps)).
Proof.
  intros Hdp Hvs Hs Hp Hb. apply In_bucket_classify in Hb.
  destruct Hb as [_ Hd].
  unfold Proposals.decision, Proposals.offchainResultNotYetSubmitted in Hd.
  rewrite Hdp, Hvs, Hs, Hp in Hd. cbv zeta in Hd.
  rewrite !andb_false_r in Hd. simpl in Hd.
  destruct (findOffchainResult results p); discriminate.
Qed.

(** X7: when the off-chain result of a proposal is not yet submitted and
    the results hold an entry for it, the proposal is in [votingProposals] if
    it has Snapshot votes and the result passes, and in [failedProposals]
    otherwise. *)
Theorem not_yet_submitted_voting_or_failed results ps p dp r :
  daoProposal p = Some dp ->
  offchainResultNotYetSubmitted p dp = true ->
  findOffchainResult results p = Some r ->
  In p ps ->
  In p (bucket (if negb (noSnapshotVotes p) && didPassSimpleMajority r
                then Voting else Failed)
               (classify results ps)).
Proof.
  intros Hdp Hns Hr Hin. apply In_bucket_classify. split; [assumption|].
  unfold Proposals.decision. rewrite Hdp.
  pose proof Hns as Hns'.
  unfold Proposals.offchainResultNotYetSubmitted in Hns'.
  destruct (daoProposalVotingState p) as [vs|]; [|discriminate].
  cbv zeta. rewrite Hr, Hns.
  apply andb_true_iff in Hns'. destruct Hns' as [Hns' _].
  apply andb_true_iff in Hns'. destruct Hns' as [Hst _].
  destruct vs; try discriminate Hst; simpl;
    destruct (noSnapshotVotes p), (didPassSimpleMajority r),
      (proposalHasFlag SPONSORED (flags dp)),
      (proposalHasFlag PROCESSED (flags dp)); reflexivity.
Qed.

(** X8: with vote state NOT_PASS or TIE, the flag SPONSORED or PROCESSED and
    an entry in the off-chain results, a proposal is in [failedProposals],
    unless its result is not yet submitted, it has Snapshot votes and the
    result passes. *)
Theorem failed_when_NOT_PASS_or_TIE results ps p dp vs r :
  daoProposal p = Some dp ->
  daoProposalVotingState p = Some vs ->
  vs = NOT_PASS \/ vs = TIE ->
  proposalHasFlag SPONSORED (flags dp) = true
  \/ proposalHasFlag PROCESSED (flags dp) = true ->
  findOffchainResult results p = Some r ->
  offchainResultNotYetSubmitted p dp && negb (noSnapshotVotes p)
  && didPassSimpleMajority r = false ->
  In p ps ->
  In p (failedProposals (classify results ps)).
Proof.
  intros Hdp Hvs Hst Hf Hr Hno Hin.
  apply (In_bucket_classify results ps Failed p). split; [assumption|].
  unfold Proposals.decision. rewrite Hdp, Hvs, Hr. cbv zeta. rewrite Hno.
  assert (Hfl : proposalHasFlag SPONSORED (flags dp)
                || proposalHasFlag PROCESSED (flags dp) = true)
    by (apply orb_true_iff; exact Hf).
  rewrite Hfl. destruct Hst; subst vs; reflexivity.
Qed.

(** X9: what the two lists of sponsored proposals can hold: a proposal in
    [votingProposals] carries SPONSORED and is in GRACE_PERIOD, IN_PROGRESS
    or TIE; one in [failedProposals] is in NOT_PASS, TIE or GRACE_PERIOD;
    both have an entry in the off-chain results. *)
Theorem voting_and_failed_only_hold results ps p :
  (In p (votingProposals (classify results ps)) ->
   exists dp vs r,
     daoProposal p = Some dp /\ daoProposalVotingState p = Some vs
     /\ findOffchainResult results p = Some r
     /\ proposalHasFlag SPONSORED (flags dp) = true
     /\ (vs = GRACE_PERIOD \/ vs = IN_PROGRESS \/ vs = TIE))
  /\ (In p (failedProposals (classify results ps)) ->
      exists dp vs r,
        daoProposal p = Some dp /\ daoProposalVotingState p = Some vs
        /\ findOffchainResult results p = Some r
        /\ (proposalHasFlag SPONSORED (flags dp) = true
            \/ proposalHasFlag PROCESSED (flags dp) = true)
        /\ (vs = NOT_PASS \/ vs = TIE \/ vs = GRACE_PERIOD)).
Proof.
  split; intros Hb;
    [apply (In_bucket_classify results ps Voting p) in Hb
    |apply (In_bucket_classify results ps Failed p) in Hb];
    destruct Hb as [_ Hd];
    unfold Proposals.decision, Proposals.offchainResultNotYetSubmitted in Hd;
    (destruct (daoProposal p) as [dp|]; [|discriminate]);
    (destruct (daoProposalVotingState p) as [vs|]; cbv zeta in Hd;
     [|destruct (includeProposalsExistingOnlyOffchain
                 || proposalHasFlag EXISTS (flags dp)); discriminate]);
    (destruct (findOffchainResult results p) as [r|];
     [|destruct (proposalHasVotingState PASS vs
                 && (proposalHasFlag SPONSORED (flags dp)
                     || proposalHasFlag PROCESSED (flags dp)));
       discriminate]);
    exists dp, vs, r; repeat (split; [reflexivity|]);
    destruct (proposalHasFlag SPONSORED (flags dp)),
      (proposalHasFlag PROCESSED (flags dp)),
      (reporterIsBurnAddress BURN_ADDRESS p), (noSnapshotVotes p),
      (didPassSimpleMajority r), vs;
    simpl in Hd; try discriminate; auto.
Qed.

(** X10: on tallies that are safe integers, [didPassSimpleMajority] holds
    exactly when the Yes units exceed the No units, so a tie does not pass;
    a tally that is NaN never passes. *)
Theorem didPassSimpleMajority_strict y n :
  Z.abs y <= JS.MAX_SAFE_INTEGER ->
  Z.abs n <= JS.MAX_SAFE_INTEGER ->
  didPassSimpleMajority
    (mkVotingResult (mkVoteTally (JS.Number y)) (mkVoteTally (JS.Number n)))
  = (n <? y)
  /\ didPassSimpleMajority
       (mkVotingResult (mkVoteTally S754_nan) (mkVoteTally (JS.Number n)))
     = false
  /\ didPassSimpleMajority
       (mkVotingResult (mkVoteTally (JS.Number y)) (mkVoteTally S754_nan))
     = false.
Proof.
  intros Hy Hn. unfold didPassSimpleMajority. cbn [Yes No units].
  split; [now apply gt_Number|].
  split; apply gt_nan.
Qed.

(** ** What the component shows *)

Local Abbreviation afterClassificationEffect :=
  (Proposals.afterClassificationEffect proposalHasFlag normalizeString
     BURN_ADDRESS includeProposalsExistingOnlyOffchain).

(** The render that follows both effects. *)
Local Abbreviation renderAfterEffects h prevState :=
  (render h (proposalsForVotingResultsEffect h)
          (afterClassificationEffect h prevState)).

(** X20: an error is shown whatever else holds, the loading state
    included, and the first of the three errors that is defined is the one
    shown. *)
Theorem error_is_rendered_first h pfvr fp e :
  proposalsError h = Some e
  \/ (proposalsError h = None /\ offchainVotingResultsError h = Some e)
  \/ (proposalsError h = None /\ offchainVotingResultsError h = None
      /\ defaultChainError h = Some e) ->
  render h pfvr fp = ErrorMessageWithDetails e.
Proof.
  intros H.
  assert (He : error h = Some e).
  { unfold error.
    destruct H as [-> | [[-> ->] | (-> & -> & ->)]]; reflexivity. }
  unfold render. rewrite He. now rewrite andb_false_r.
Qed.

(** X21: without an error, the loader is shown while the fetch of the
    proposals has not ended, while the fetch of the off-chain results is
    PENDING, and while that fetch is on STANDBY with proposals to fetch
    results for. *)
Theorem loader_while_fetching h fp :
  error h = None ->
  isTerminal (proposalsStatus h) = false
  \/ offchainVotingResultsStatus h = PENDING
  \/ (offchainVotingResultsStatus h = STANDBY /\ proposals h <> []) ->
  render h (proposalsForVotingResultsEffect h) fp = LoaderLarge.
Proof.
  intros He H. unfold render. rewrite He.
  assert (Hl : isLoading h (proposalsForVotingResultsEffect h) = true).
  { unfold isLoading, proposalsForVotingResultsEffect.
    destruct H as [Hp | [Ho | [Ho Hps]]].
    - destruct (proposalsStatus h); try discriminate; reflexivity.
    - rewrite Ho. simpl. now rewrite orb_true_r.
    - rewrite Ho. rewrite length_map.
      destruct (proposals h); [congruence|]. simpl.
      now rewrite orb_true_r. }
  now rewrite Hl.
Qed.




(** X24: once the proposals are FULFILLED with an empty list and no error,
    and the fetch of the off-chain results is not PENDING, the component
    shows "No proposals, yet!", whatever the lists held before the effect. *)
Theorem no_proposals_yet h prevState :
  proposalsStatus h = FULFILLED ->
  proposals h = [] ->
  offchainVotingResultsStatus h <> PENDING ->
  error h = None ->
  renderAfterEffects h prevState = NoProposalsYet.
Proof.
  intros Hp Hps Ho He.
  unfold render, Proposals.afterClassificationEffect,
    Proposals.classificationEffect, proposalsForVotingResultsEffect,
    isLoading.
  rewrite Hp, He, Hps. cbn.
  destruct (offchainVotingResultsStatus h); try reflexivity; congruence.
Qed.

End ProposalsFacts.

(** ** The classification on the sample proposals *)

Section ProposalsSamples.

Import Proposals Samples.

Local Abbreviation classify_model :=
  (Proposals.classify proposalHasFlag_bits normalizeString_lower
     BURN_ADDRESS_zero).
Local Abbreviation effect_model :=
  (Proposals.classificationEffect proposalHasFlag_bits normalizeString_lower
     BURN_ADDRESS_zero).

(** The four samples land in voting, nonsponsored, passed and failed. *)
Example classify_samples :
  classify_model false results_in_progress
    [p_passed; p_in_progress; p_not_pass; p_draft]
  = mkFilteredProposals [] [p_draft] [p_passed] [p_in_progress].
Proof. reflexivity. Qed.

Lemma passed_when_PASS_and_sponsored_or_processed_witness :
  In p_passed
     (passedProposals
        (classify_model false results_other [p_draft; p_passed])).
Proof.
  apply (passed_when_PASS_and_sponsored_or_processed
           proposalHasFlag_bits normalizeString_lower BURN_ADDRESS_zero false
           results_other [p_draft; p_passed] p_passed dp_sponsored).
  - reflexivity.
  - reflexivity.
  - left; reflexivity.
  - right; left; reflexivity.
Defined.

Lemma nonsponsored_iff_include_or_EXISTS_witness :
  In p_draft (nonsponsoredProposals (classify_model false [] [p_draft])).
Proof.
  apply (proj1 (nonsponsored_iff_include_or_EXISTS
                  proposalHasFlag_bits normalizeString_lower BURN_ADDRESS_zero
                  false [] [p_draft] p_draft dp_exists
                  eq_refl eq_refl (or_introl eq_refl))).
  right; reflexivity.
Defined.

Lemma unmatched_offchain_result_leaves_unplaced_witness :
  forallb (fun b => match bucket b (classify_model false results_other
                                      [p_in_progress]) with
                    | [] => true
                    | _ :: _ => false
                    end)
          [Failed; Nonsponsored; Passed; Voting] = true
  /\ ~ In p_in_progress
       (votingProposals (classify_model false results_other [p_in_progress])).
Proof.
  split; [reflexivity|].
  apply (fun Hpassed Hunmatched =>
           unmatched_offchain_result_leaves_unplaced
             proposalHasFlag_bits normalizeString_lower BURN_ADDRESS_zero
             false results_other [p_in_progress] p_in_progress dp_sponsored
             IN_PROGRESS eq_refl eq_refl Hpassed Hunmatched Voting).
  - simpl. intros H; exact H.
  - intros entry [<- | []]. vm_compute. discriminate.
Defined.

Lemma voting_needs_offchain_result_witness :
  In p_in_progress
     (votingProposals
        (classify_model false results_in_progress [p_in_progress])).
Proof.
  apply (proj2 (voting_needs_offchain_result
                  proposalHasFlag_bits normalizeString_lower BURN_ADDRESS_zero
                  false results_in_progress [p_in_progress] p_in_progress
                  dp_sponsored IN_PROGRESS eq_refl eq_refl
                  (or_intror eq_refl) eq_refl (or_introl eq_refl))
         yes5_no3); reflexivity.
Defined.

(** C1 fails as stated: vote state IN_PROGRESS, SPONSORED, no off-chain
    result for the proposal, and the proposal is not in [votingProposals]. *)
Lemma voting_without_offchain_result_counterexample :
  daoProposal p_in_progress = Some dp_sponsored
  /\ daoProposalVotingState p_in_progress = Some IN_PROGRESS
  /\ proposalHasFlag_bits SPONSORED (flags dp_sponsored) = true
  /\ Proposals.findOffchainResult normalizeString_lower results_other
       p_in_progress = None
  /\ ~ In p_in_progress
       (votingProposals
          (classify_model false results_other [p_in_progress])).
Proof.
  repeat split; try reflexivity.
  simpl. intros H; exact H.
Qed.

Lemma processed_with_vote_state_never_nonsponsored_witness :
  ~ In p_not_pass
      (nonsponsoredProposals
         (classify_model true results_other [p_not_pass])).
Proof.
  apply (processed_with_vote_state_never_nonsponsored
           proposalHasFlag_bits normalizeString_lower BURN_ADDRESS_zero true
           results_other [p_not_pass] p_not_pass dp_processed NOT_PASS);
    reflexivity.
Defined.

(** C9 fails as stated: a proposal carrying PROCESSED with no recorded vote
    state is pushed to [nonsponsoredProposals] when the option is set. *)
Lemma processed_in_nonsponsored_counterexample :
  daoProposal p_processed_no_state = Some dp_processed
  /\ proposalHasFlag_bits PROCESSED (flags dp_processed) = true
  /\ In p_processed_no_state
        (nonsponsoredProposals
           (classify_model true [] [p_processed_no_state])).
Proof.
  repeat split; try reflexivity. left; reflexivity.
Qed.

Lemma placed_in_exactly_one_bucket_witness :
  In p_passed
     (bucket Failed (classify_model false results_in_progress
                       [p_passed; p_in_progress; p_not_pass; p_draft]))
  <-> Failed = Passed.
Proof.
  apply (fun Hplaced =>
           placed_in_exactly_one_bucket
             proposalHasFlag_bits normalizeString_lower BURN_ADDRESS_zero
             false results_in_progress
             [p_passed; p_in_progress; p_not_pass; p_draft] p_passed Passed
             Hplaced Failed).
  left; reflexivity.
Defined.

(** C3 fails as stated: the lists are computed while the fetch of the
    off-chain results is PENDING. *)
Lemma classification_while_results_pending_counterexample :
  effect_model false hooks_results_pending
  = Some (mkFilteredProposals [] [] [p_passed] [])
  /\ offchainVotingResultsStatus hooks_results_pending = PENDING
  /\ isTerminal (offchainVotingResultsStatus hooks_results_pending) = false.
Proof. repeat split. Qed.

End ProposalsSamples.

(** * Properties of [useDaoTotalUnits] *)

Section TotalUnitsFacts.

Import UseDaoTotalUnits.

Variable TOTAL_ADDRESS GUILD_ADDRESS UNITS_ADDRESS : string.

Local Abbreviation getTotalUnitsFromExtension :=
  (UseDaoTotalUnits.getTotalUnitsFromExtension
     TOTAL_ADDRESS GUILD_ADDRESS UNITS_ADDRESS).
Local Abbreviation networkStatusEffect :=
  (UseDaoTotalUnits.networkStatusEffect
     TOTAL_ADDRESS GUILD_ADDRESS UNITS_ADDRESS).
Local Abbreviation runEffects :=
  (UseDaoTotalUnits.runEffects TOTAL_ADDRESS GUILD_ADDRESS UNITS_ADDRESS).

(** Whether a subgraph query is among the requests sent. *)
Local Abbreviation queried w := (existsb isSubgraphQuery (sent w)).

Ltac run_extension :=
  unfold UseDaoTotalUnits.getTotalUnitsFromExtension, tryCatch, bind,
    callBalanceOf, setTotalUnits, setTotalUnitsIssued, setTotalUnitsStatus,
    setTotalUnitsError, modifyState, ret;
  cbn [state sent fst snd].

(** Both reads succeed: the state after the direct-contract path. *)
Lemma getTotalUnitsFromExtension_fulfilled c w T G :
  balanceOf c TOTAL_ADDRESS UNITS_ADDRESS = Normal T ->
  balanceOf c GUILD_ADDRESS UNITS_ADDRESS = Normal G ->
  getTotalUnitsFromExtension (Some c) w =
  (Normal tt,
   mkWorld (mkState (Some (JS.Number T)) (Some (JS.Number (T - G)))
                    FULFILLED (totalUnitsError (state w)))
           ((sent w ++ [ContractCall TOTAL_ADDRESS UNITS_ADDRESS])
              ++ [ContractCall GUILD_ADDRESS UNITS_ADDRESS])).
Proof.
  intros HT HG. run_extension. rewrite HT. cbn [state sent]. rewrite HG.
  reflexivity.
Qed.

(** The direct-contract path sends contract reads only. *)
Lemma getTotalUnitsFromExtension_no_query bank w :
  queried (snd (getTotalUnitsFromExtension bank w)) = queried w.
Proof.
  destruct bank as [c|]; [|reflexivity].
  run_extension.
  destruct (balanceOf c TOTAL_ADDRESS UNITS_ADDRESS) as [T|e];
    cbn [state sent fst snd].
  - destruct (balanceOf c GUILD_ADDRESS UNITS_ADDRESS) as [G|e];
      cbn [state sent fst snd]; rewrite !existsb_app; simpl;
      now rewrite !orb_false_r.
  - rewrite existsb_app; simpl. now rewrite orb_false_r.
Qed.

(** C5, as the code has it: when both reads succeed with T and G, the hook
    holds [Number(T)] and [Number(T - G)] and the status FULFILLED; these are
    T and T - G themselves when they are safe integers; the issued units
    are not negative when G <= T and negative, not clamped, when T < G. *)
Theorem extension_path_reports_units c w T G :
  balanceOf c TOTAL_ADDRESS UNITS_ADDRESS = Normal T ->
  balanceOf c GUILD_ADDRESS UNITS_ADDRESS = Normal G ->
  let s' := state (snd (getTotalUnitsFromExtension (Some c) w)) in
  totalUnitsStatus s' = FULFILLED
  /\ totalUnits s' = Some (JS.Number T)
  /\ totalUnitsIssued s' = Some (JS.Number (T - G))
  /\ (Z.abs T <= JS.MAX_SAFE_INTEGER ->
      JS.integerValue (JS.Number T) = Some T)
  /\ (Z.abs (T - G) <= JS.MAX_SAFE_INTEGER ->
      JS.integerValue (JS.Number (T - G)) = Some (T - G))
  /\ (G <= T -> JS.isNonNegative (JS.Number (T - G)) = true)
  /\ (T < G -> JS.isNegative (JS.Number (T - G)) = true).
Proof.
  intros HT HG.
  rewrite (getTotalUnitsFromExtension_fulfilled c w T G HT HG).
  cbn [snd state totalUnits totalUnitsIssued totalUnitsStatus].
  repeat split.
  - apply Number_exact.
  - apply Number_exact.
  - intros Hle. apply Number_nonnegative. lia.
  - intros Hlt. apply Number_negative. lia.
Qed.

(** C6: when a read of the direct-contract path throws, the hook clears both
    numbers, keeps the error thrown and reports REJECTED. *)
Theorem extension_path_failure_rejects c w e :
  balanceOf c TOTAL_ADDRESS UNITS_ADDRESS = Throw e
  \/ (exists T, balanceOf c TOTAL_ADDRESS UNITS_ADDRESS = Normal T
                /\ balanceOf c GUILD_ADDRESS UNITS_ADDRESS = Throw e) ->
  let r := getTotalUnitsFromExtension (Some c) w in
  fst r = Normal tt
  /\ totalUnits (state (snd r)) = None
  /\ totalUnitsIssued (state (snd r)) = None
  /\ totalUnitsError (state (snd r)) = Some e
  /\ totalUnitsStatus (state (snd r)) = REJECTED.
Proof.
  intros [HT | (T & HT & HG)]; run_extension; rewrite HT;
    cbn [state sent fst snd]; [|rewrite HG; cbn [state sent fst snd]];
    repeat split.
Qed.

(** C2, as the code has it: with the subgraph reported NOT_OK the second
    effect is the direct-contract path and sends no subgraph query; the
    first effect still sends the query when it has not been called, so after
    both effects a query has been sent exactly when one had been sent
    before or the lazy query had not been called. *)
Theorem not_ok_effect_goes_to_contract i w :
  subgraphNetworkStatus i = NOT_OK ->
  networkStatusEffect i w = getTotalUnitsFromExtension (BankExtensionContract i) w
  /\ queried (snd (networkStatusEffect i w)) = queried w
  /\ queried (snd (runEffects i w)) = queried w || negb (called (query i)).
Proof.
  intros Hs.
  assert (Heq : forall w0, networkStatusEffect i w0
                = getTotalUnitsFromExtension (BankExtensionContract i) w0).
  { intros w0. unfold UseDaoTotalUnits.networkStatusEffect. now rewrite Hs. }
  split; [apply Heq|]. split.
  - rewrite Heq. apply getTotalUnitsFromExtension_no_query.
  - unfold UseDaoTotalUnits.runEffects, bind, lazyQueryEffect.
    destruct (called (query i)); cbn [negb].
    + unfold ret. rewrite Heq, getTotalUnitsFromExtension_no_query.
      now rewrite orb_false_r.
    + unfold send. rewrite Heq, getTotalUnitsFromExtension_no_query.
      cbn [sent]. rewrite existsb_app. simpl.
      now rewrite orb_true_r.
Qed.

(** ** Further properties of the hook *)

Local Abbreviation getTotalUnitsFromSubgraph :=
  (UseDaoTotalUnits.getTotalUnitsFromSubgraph
     TOTAL_ADDRESS GUILD_ADDRESS UNITS_ADDRESS).

(** The world once [setTotalUnitsStatus(AsyncStatus.PENDING)] has run. *)
Local Abbreviation pending w := (snd (setTotalUnitsStatus PENDING w)).

Ltac run_subgraph :=
  unfold UseDaoTotalUnits.getTotalUnitsFromSubgraph, tryCatch, bind, throw,
    setTotalUnits, setTotalUnitsIssued, setTotalUnitsStatus, modifyState, ret;
  cbn [state sent fst snd].

(** X11: with the subgraph OK, the query not loading, a registry address
    and a reply holding a DAO, the hook takes both numbers from the first DAO
    of the reply, reports FULFILLED and sends no request: no contract read
    is made. *)
Theorem subgraph_path_fulfilled i w d dao rest :
  subgraphNetworkStatus i = OK ->
  loading (query i) = false ->
  JS.truthy (contractAddress i) = true ->
  data (query i) = Some d ->
  tributeDaos d = dao :: rest ->
  networkStatusEffect i w =
  (Normal tt,
   mkWorld (mkState (Some (JS.Number (dao_totalUnits dao)))
                    (Some (JS.Number (dao_totalUnitsIssued dao)))
                    FULFILLED (totalUnitsError (state w)))
           (sent w)).
Proof.
  intros Hs Hl Ha Hd Hdaos.
  unfold UseDaoTotalUnits.networkStatusEffect. rewrite Hs, Hl, Ha.
  cbn [negb andb]. run_subgraph. rewrite Hl, Hd, Hdaos. reflexivity.
Qed.

(** X12: when the query ended with an error and no data, or with a reply
    holding no DAO, [getTotalUnitsFromSubgraph] is the direct-contract path
    run from the PENDING state. *)
Theorem subgraph_failure_falls_back q bank w :
  (data q = None /\ error q <> None)
  \/ (loading q = false
      /\ exists d, data q = Some d /\ tributeDaos d = []) ->
  getTotalUnitsFromSubgraph q bank w =
  getTotalUnitsFromExtension bank (pending w).
Proof.
  intros [[Hd He] | (Hl & d & Hd & Hdaos)]; run_subgraph.
  - rewrite Hd. destruct (error q) as [e|]; [|congruence].
    now destruct (negb (loading q)).
  - rewrite Hl, Hd, Hdaos. reflexivity.
Qed.

(** X13: with neither data nor an error, [getTotalUnitsFromSubgraph] sets
    the status to PENDING and stops there: the numbers and the error are
    untouched and nothing is sent. The same is left of a failed query when
    there is no bank extension contract to fall back to. *)
Theorem subgraph_without_reply_stays_pending q bank w :
  (error q = None /\ (loading q = true \/ data q = None))
  \/ (bank = None /\ data q = None) ->
  getTotalUnitsFromSubgraph q bank w =
  (Normal tt,
   mkWorld (mkState (totalUnits (state w)) (totalUnitsIssued (state w))
                    PENDING (totalUnitsError (state w)))
           (sent w)).
Proof.
  intros [[He [Hl | Hd]] | [Hb Hd]]; run_subgraph.
  - rewrite Hl, He. reflexivity.
  - rewrite Hd, He. now destruct (negb (loading q)).
  - rewrite Hd, Hb.
    destruct (error q), (negb (loading q)); reflexivity.
Qed.

(** X14: with the subgraph OK, the second effect changes nothing while the
    query is loading or there is no registry address: the status stays where
    it was. *)
Theorem ok_effect_waits i w :
  subgraphNetworkStatus i = OK ->
  loading (query i) = true \/ JS.truthy (contractAddress i) = false ->
  networkStatusEffect i w = (Normal tt, w)
  /\ state (snd (runEffects i w)) = state w.
Proof.
  intros Hs H.
  assert (Hn : forall w0, networkStatusEffect i w0 = (Normal tt, w0)).
  { intros w0. unfold UseDaoTotalUnits.networkStatusEffect. rewrite Hs.
    destruct H as [-> | ->]; [reflexivity|].
    now rewrite andb_false_r. }
  split; [apply Hn|].
  unfold UseDaoTotalUnits.runEffects, bind, lazyQueryEffect.
  destruct (negb (called (query i))); unfold send, ret; now rewrite Hn.
Qed.

(** X15: the direct-contract path reads the total first and the guild
    balance only when the first read returned; it sends nothing else. *)
Theorem extension_path_requests c w :
  sent (snd (getTotalUnitsFromExtension (Some c) w)) =
  sent w
  ++ ContractCall TOTAL_ADDRESS UNITS_ADDRESS
     :: match balanceOf c TOTAL_ADDRESS UNITS_ADDRESS with
        | Normal _ => [ContractCall GUILD_ADDRESS UNITS_ADDRESS]
        | Throw _ => []
        end.
Proof.
  run_extension.
  destruct (balanceOf c TOTAL_ADDRESS UNITS_ADDRESS) as [T|e];
    cbn [state sent fst snd]; [|reflexivity].
  destruct (balanceOf c GUILD_ADDRESS UNITS_ADDRESS) as [G|e];
    cbn [state sent fst snd]; now rewrite <- app_assoc.
Qed.

Lemma getTotalUnitsFromExtension_completes bank w :
  fst (getTotalUnitsFromExtension bank w) = Normal tt.
Proof.
  destruct bank as [c|]; [|reflexivity]. run_extension.
  destruct (balanceOf c TOTAL_ADDRESS UNITS_ADDRESS) as [T|e];
    cbn [state sent fst snd]; [|reflexivity].
  destruct (balanceOf c GUILD_ADDRESS UNITS_ADDRESS) as [G|e]; reflexivity.
Qed.

Lemma getTotalUnitsFromSubgraph_cases q bank w :
  getTotalUnitsFromSubgraph q bank w
  = getTotalUnitsFromExtension bank (pending w)
  \/ getTotalUnitsFromSubgraph q bank w = (Normal tt, pending w)
  \/ exists dao,
       getTotalUnitsFromSubgraph q bank w =
       (Normal tt,
        mkWorld (mkState (Some (JS.Number (dao_totalUnits dao)))
                         (Some (JS.Number (dao_totalUnitsIssued dao)))
                         FULFILLED (totalUnitsError (state w)))
                (sent w)).
Proof.
  run_subgraph.
  destruct (negb (loading q)), (data q) as [d|];
    try (destruct (error q); [left | right; left]; reflexivity).
  destruct (tributeDaos d) as [|dao rest]; [left; reflexivity|].
  right; right. exists dao. reflexivity.
Qed.

Lemma networkStatusEffect_cases i w :
  networkStatusEffect i w = (Normal tt, w)
  \/ networkStatusEffect i w
     = getTotalUnitsFromExtension (BankExtensionContract i) w
  \/ networkStatusEffect i w
     = getTotalUnitsFromSubgraph (query i) (BankExtensionContract i) w.
Proof.
  unfold UseDaoTotalUnits.networkStatusEffect.
  destruct (subgraphNetworkStatus i); [|right; left; reflexivity].
  destruct (negb (loading (query i)) && JS.truthy (contractAddress i));
    [right; right | left]; reflexivity.
Qed.

(** X16: no exception leaves the effects: whatever the query and the
    contract do, both effects complete normally. *)
Theorem runEffects_completes i w :
  fst (runEffects i w) = Normal tt.
Proof.
  unfold UseDaoTotalUnits.runEffects, bind.
  assert (Hl : exists w1, lazyQueryEffect i w = (Normal tt, w1)).
  { unfold lazyQueryEffect. destruct (negb (called (query i))); eexists;
      reflexivity. }
  destruct Hl as [w1 ->].
  destruct (networkStatusEffect_cases i w1) as [-> | [-> | ->]].
  - reflexivity.
  - apply getTotalUnitsFromExtension_completes.
  - destruct (getTotalUnitsFromSubgraph_cases
                (query i) (BankExtensionContract i) w1)
      as [-> | [-> | [dao ->]]]; try reflexivity.
    apply getTotalUnitsFromExtension_completes.
Qed.

(** X17: whatever the health signal, a subgraph query has been sent after
    both effects exactly when one had been sent before or the lazy query had
    not been called: reading the reply sends no query. *)
Theorem only_the_lazy_query_effect_queries i w :
  queried (snd (runEffects i w)) = queried w || negb (called (query i)).
Proof.
  assert (Hn : forall w0, queried (snd (networkStatusEffect i w0))
                          = queried w0).
  { intros w0.
    destruct (networkStatusEffect_cases i w0) as [-> | [-> | ->]].
    - reflexivity.
    - apply getTotalUnitsFromExtension_no_query.
    - destruct (getTotalUnitsFromSubgraph_cases
                  (query i) (BankExtensionContract i) w0)
        as [-> | [-> | [dao ->]]]; try reflexivity.
      now rewrite getTotalUnitsFromExtension_no_query. }
  unfold UseDaoTotalUnits.runEffects, bind, lazyQueryEffect.
  destruct (called (query i)); cbn [negb].
  - unfold ret. rewrite Hn. now rewrite orb_false_r.
  - unfold send. rewrite Hn. cbn [sent]. rewrite existsb_app. simpl.
    now rewrite orb_true_r.
Qed.

Lemma getTotalUnitsFromExtension_cases bank w :
  state (snd (getTotalUnitsFromExtension bank w)) = state w
  \/ (exists T G,
        state (snd (getTotalUnitsFromExtension bank w)) =
        mkState (Some (JS.Number T)) (Some (JS.Number (T - G))) FULFILLED
                (totalUnitsError (state w)))
  \/ (exists e,
        state (snd (getTotalUnitsFromExtension bank w)) =
        mkState None None REJECTED (Some e)).
Proof.
  destruct bank as [c|]; [|left; reflexivity]. run_extension.
  destruct (balanceOf c TOTAL_ADDRESS UNITS_ADDRESS) as [T|e];
    cbn [state sent fst snd]; [|right; right; exists e; reflexivity].
  destruct (balanceOf c GUILD_ADDRESS UNITS_ADDRESS) as [G|e];
    cbn [state sent fst snd].
  - right; left. exists T, G. reflexivity.
  - right; right. exists e. reflexivity.
Qed.

(** The shapes the state can have after both effects. *)
Lemma runEffects_cases i w :
  let s' := state (snd (runEffects i w)) in
  s' = state w
  \/ s' = mkState (totalUnits (state w)) (totalUnitsIssued (state w)) PENDING
                  (totalUnitsError (state w))
  \/ (exists x y,
        s' = mkState (Some x) (Some y) FULFILLED (totalUnitsError (state w)))
  \/ (exists e, s' = mkState None None REJECTED (Some e)).
Proof.
  cbv zeta. unfold UseDaoTotalUnits.runEffects, bind.
  assert (Hl : exists w1, lazyQueryEffect i w = (Normal tt, w1)
                          /\ state w1 = state w).
  { unfold lazyQueryEffect. destruct (negb (called (query i))); eexists;
      split; reflexivity. }
  destruct Hl as (w1 & -> & <-).
  destruct (networkStatusEffect_cases i w1) as [-> | [-> | ->]].
  - left; reflexivity.
  - destruct (getTotalUnitsFromExtension_cases (BankExtensionContract i) w1)
      as [-> | [(T & G & ->) | (e & ->)]].
    + left; reflexivity.
    + right; right; left. do 2 eexists. reflexivity.
    + right; right; right. eexists. reflexivity.
  - destruct (getTotalUnitsFromSubgraph_cases
                (query i) (BankExtensionContract i) w1)
      as [-> | [-> | [dao ->]]].
    + destruct (getTotalUnitsFromExtension_cases
                  (BankExtensionContract i) (pending w1))
        as [-> | [(T & G & ->) | (e & ->)]].
      * right; left; reflexivity.
      * right; right; left. do 2 eexists. reflexivity.
      * right; right; right. eexists. reflexivity.
    + right; left; reflexivity.
    + right; right; left. do 2 eexists. reflexivity.
Qed.


(** X19: the hook never clears [totalUnitsError]: an error recorded by a
    failed attempt is still there after any later run of the effects, also
    one that ends FULFILLED. *)
Theorem error_never_cleared i w :
  totalUnitsError (state w) <> None ->
  totalUnitsError (state (snd (runEffects i w))) <> None.
Proof.
  intros He.
  destruct (runEffects_cases i w)
    as [-> | [-> | [(x & y & ->) | (e & ->)]]]; cbn; congruence.
Qed.

End TotalUnitsFacts.

(** ** The hook on the sample banks *)

Section TotalUnitsSamples.

Import UseDaoTotalUnits Samples.

Local Abbreviation extension_model :=
  (UseDaoTotalUnits.getTotalUnitsFromExtension
     TOTAL_ADDRESS_model GUILD_ADDRESS_model UNITS_ADDRESS_model).
Local Abbreviation runEffects_model :=
  (UseDaoTotalUnits.runEffects
     TOTAL_ADDRESS_model GUILD_ADDRESS_model UNITS_ADDRESS_model).

Lemma extension_path_reports_units_witness :
  totalUnitsIssued (state (snd (extension_model (Some bank_100_60) world0)))
  = Some (JS.Number (100 - 60))
  /\ JS.integerValue (JS.Number (100 - 60)) = Some 40.
Proof.
  pose proof (extension_path_reports_units
                TOTAL_ADDRESS_model GUILD_ADDRESS_model UNITS_ADDRESS_model
                bank_100_60 world0 100 60 eq_refl eq_refl) as H.
  split.
  - exact (proj1 (proj2 (proj2 H))).
  - reflexivity.
Defined.

(** C5 fails as stated: the total 2^53 + 1 is reported as 2^53. *)
Lemma large_total_is_rounded_counterexample :
  balanceOf bank_large TOTAL_ADDRESS_model UNITS_ADDRESS_model
  = Normal 9007199254740993
  /\ balanceOf bank_large GUILD_ADDRESS_model UNITS_ADDRESS_model = Normal 0
  /\ totalUnits (state (snd (extension_model (Some bank_large) world0)))
     = Some (JS.Number 9007199254740993)
  /\ JS.integerValue (JS.Number 9007199254740993) = Some 9007199254740992
  /\ JS.integerValue (JS.Number 9007199254740993) <> Some 9007199254740993.
Proof.
  repeat split; try reflexivity. vm_compute. discriminate.
Qed.

Lemma extension_path_failure_rejects_witness :
  totalUnitsStatus
    (state (snd (extension_model (Some bank_failing) world0))) = REJECTED
  /\ totalUnitsError
       (state (snd (extension_model (Some bank_failing) world0)))
     = Some (mkError "execution reverted").
Proof.
  pose proof (extension_path_failure_rejects
                TOTAL_ADDRESS_model GUILD_ADDRESS_model UNITS_ADDRESS_model
                bank_failing world0 (mkError "execution reverted")
                (or_introl eq_refl)) as H.
  split.
  - exact (proj2 (proj2 (proj2 (proj2 H)))).
  - exact (proj1 (proj2 (proj2 (proj2 H)))).
Defined.

Lemma not_ok_effect_goes_to_contract_witness :
  existsb isSubgraphQuery (sent (snd (runEffects_model inputs_not_ok world0)))
  = existsb isSubgraphQuery (sent world0)
    || negb (called (query inputs_not_ok)).
Proof.
  exact (proj2 (proj2 (not_ok_effect_goes_to_contract
                         TOTAL_ADDRESS_model GUILD_ADDRESS_model
                         UNITS_ADDRESS_model inputs_not_ok world0 eq_refl))).
Defined.

(** C2 fails as stated: on the first render, with the subgraph reported
    NOT_OK, the effects send the subgraph query before the contract reads. *)
Lemma query_sent_while_not_ok_counterexample :
  subgraphNetworkStatus inputs_not_ok = NOT_OK
  /\ sent (snd (runEffects_model inputs_not_ok world0))
     = [SubgraphQuery (Some "0xda0"%string);
        ContractCall TOTAL_ADDRESS_model UNITS_ADDRESS_model;
        ContractCall GUILD_ADDRESS_model UNITS_ADDRESS_model]
  /\ existsb isSubgraphQuery
       (sent (snd (runEffects_model inputs_not_ok world0))) = true.
Proof. repeat split. Qed.

End TotalUnitsSamples.

(** * Properties of [SponsorAction] *)

Section SponsorActionFacts.

Import UseDaoTotalUnits SponsorAction.

Variable getContractByAddress : string -> Completion Contract.
Variable signAndSendProposal : SignArguments -> Completion Signed.
Variable prepareVoteProposalData : DataToPrepare -> string.
Variable txSend :
  string -> string -> SponsorArguments -> TxArguments -> Completion unit.
Variable toString : Z -> string.
Variable parseInt : string -> JS.number.

Local Abbreviation handleSubmit :=
  (SponsorAction.handleSubmit getContractByAddress signAndSendProposal
     prepareVoteProposalData txSend toString parseInt).
Local Abbreviation onClick :=
  (SponsorAction.onClick getContractByAddress signAndSendProposal
     prepareVoteProposalData txSend toString parseInt).

Ltac run_submit :=
  unfold SponsorAction.handleSubmit, SponsorAction.tryCatch,
    SponsorAction.bind, SponsorAction.throw, SponsorAction.ret,
    SponsorAction.complete, SponsorAction.call, setSubmitError;
  cbn [submitError calls fst snd].

Lemma isInProcess_not_isDone h : isInProcess h && isDone h = false.
Proof.
  unfold isInProcess, isDone.
  destruct (txStatus h), (proposalSignAndSendStatus h); reflexivity.
Qed.

(** X25: whenever the button shows the loader or "Done", or the wallet
    prompt is open, or the member action is disabled, the button is disabled
    and a click changes nothing: no call is made and no error is set. *)
Theorem click_is_ignored_unless_idle h snapshotDraft w :
  buttonLabel h <> SponsorLabel
  \/ txIsPromptOpen h = true
  \/ isDisabled h = true ->
  disabled h = true /\ onClick h snapshotDraft w = (Normal tt, w).
Proof.
  intros H.
  assert (Hd : isDisabled h || isInProcessOrDone h = true).
  { unfold isInProcessOrDone. destruct H as [Hl | [-> | ->]].
    - unfold buttonLabel in Hl.
      destruct (isInProcess h); [now rewrite orb_true_r|].
      destruct (isDone h); [now rewrite !orb_true_r | congruence].
    - now rewrite !orb_true_r.
    - reflexivity. }
  split; [exact Hd|]. unfold SponsorAction.onClick. now rewrite Hd.
Qed.

(** X26: without a DAO registry address, [handleSubmit] records "No DAO
    Registry address was found." and makes no call; with an address and no
    Snapshot draft it records "No Snapshot draft was found." and makes no
    call. The missing address is reported first. *)
Theorem submit_without_address_or_draft h snapshotDraft w :
  JS.truthy (daoRegistryAddress h) = false \/ snapshotDraft = None ->
  handleSubmit h snapshotDraft w =
  (Normal tt,
   SponsorAction.mkWorld
     (Some (mkError
              (if JS.truthy (daoRegistryAddress h)
               then "No Snapshot draft was found."
               else "No DAO Registry address was found.")))
     (calls w)).
Proof.
  intros H. run_submit.
  destruct (daoRegistryAddress h) as [[|c a]|]; cbn [JS.truthy];
    try reflexivity.
  destruct H as [H | ->]; [discriminate | reflexivity].
Qed.

(** X27: [handleSubmit] never throws, makes at most one signing call and
    one transaction, and sends the transaction only after the signing call
    has resolved. *)
Theorem submit_signs_before_sending h snapshotDraft w :
  fst (handleSubmit h snapshotDraft w) = Normal tt
  /\ (calls (snd (handleSubmit h snapshotDraft w)) = calls w
      \/ (exists a,
            calls (snd (handleSubmit h snapshotDraft w))
            = calls w ++ [SignAndSendProposal a]
            /\ exists e, signAndSendProposal a = Throw e)
      \/ (exists a signed methods arguments txArguments,
            calls (snd (handleSubmit h snapshotDraft w))
            = calls w
              ++ [SignAndSendProposal a;
                  TxSend "sponsorProposal" methods arguments txArguments]
            /\ signAndSendProposal a = Normal signed)).
Proof.
  run_submit.
  destruct (daoRegistryAddress h) as [[|c a]|]; cbn [JS.truthy];
    try (split; [reflexivity | left; reflexivity]).
  destruct snapshotDraft as [d|]; [|split; [reflexivity | left; reflexivity]].
  destruct (getContractByAddress (actionId d)) as [contract|e];
    [|split; [reflexivity | left; reflexivity]].
  cbn [submitError calls fst snd].
  match goal with
  | |- context [signAndSendProposal ?x] =>
      destruct (signAndSendProposal x) as [signed|e] eqn:Hsign
  end; cbn [submitError calls fst snd].
  - match goal with
    | |- context [txSend ?m ?ms ?x ?y] =>
        destruct (txSend m ms x y) as [[]|e]
    end; cbn [submitError calls fst snd];
      (split; [reflexivity|]); right; right;
      do 5 eexists; rewrite <- app_assoc; (split; [reflexivity | exact Hsign]).
  - split; [reflexivity|]. right; left. eexists.
    split; [reflexivity | eauto].
Qed.

(** X28: when every step succeeds, [handleSubmit] signs the draft for the
    adapter found by the draft's action id and then sends "sponsorProposal"
    with the registry address, the draft's id and the prepared data, from
    the account or the empty string, with the fast gas price when there is
    one; [submitError] is left as it was, so an earlier error stays. *)
Theorem submit_success h d w address contract signed :
  daoRegistryAddress h = Some address ->
  JS.truthy (Some address) = true ->
  getContractByAddress (actionId d) = Normal contract ->
  let signArguments :=
    mkSignArguments (payload (msg d), timestamp (msg d))
                    (contractAddress contract) SnapshotType_proposal in
  signAndSendProposal signArguments = Normal signed ->
  let p := signed_payload (data signed) in
  let prepared :=
    prepareVoteProposalData
      (mkDataToPrepare
         (mkPreparedPayload (signed_name p) (signed_body p) (choices p)
                            (toString (snapshot p)) (start p) (end_ p))
         (signature signed) (space (data signed))
         (parseInt (signed_timestamp (data signed)))) in
  let txArguments :=
    mkTxArguments (match account h with Some a => a | None => EmptyString end)
                  (option_map fast (gasPrices h)) in
  txSend "sponsorProposal" (instance_methods contract)
         (address, idInDAO d, prepared) txArguments = Normal tt ->
  handleSubmit h (Some d) w =
  (Normal tt,
   SponsorAction.mkWorld
     (submitError w)
     (calls w
      ++ [SignAndSendProposal signArguments;
          TxSend "sponsorProposal" (instance_methods contract)
                 (address, idInDAO d, prepared) txArguments])).
Proof.
  intros Ha Htr Hc sa Hs p prepared ta Htx. run_submit.
  rewrite Ha, Htr, Hc. cbn [submitError calls fst snd].
  fold sa. rewrite Hs. cbn [submitError calls fst snd].
  fold p. fold prepared. fold ta. rewrite Htx.
  cbn [submitError calls fst snd]. now rewrite <- app_assoc.
Qed.

(** X29: when a step fails, the error thrown is the one recorded: a
    contract that is not found stops before signing, and a rejected
    signature stops before the transaction. *)
Theorem submit_failure_is_recorded h d w address e :
  daoRegistryAddress h = Some address ->
  JS.truthy (Some address) = true ->
  (getContractByAddress (actionId d) = Throw e ->
   handleSubmit h (Some d) w
   = (Normal tt, SponsorAction.mkWorld (Some e) (calls w)))
  /\ (forall contract,
        getContractByAddress (actionId d) = Normal contract ->
        let signArguments :=
          mkSignArguments (payload (msg d), timestamp (msg d))
                          (contractAddress contract) SnapshotType_proposal in
        signAndSendProposal signArguments = Throw e ->
        handleSubmit h (Some d) w
        = (Normal tt,
           SponsorAction.mkWorld
             (Some e) (calls w ++ [SignAndSendProposal signArguments]))).
Proof.
  intros Ha Htr. split.
  - intros Hc. run_submit. rewrite Ha, Htr, Hc. reflexivity.
  - intros contract Hc sa Hs. run_submit. rewrite Ha, Htr, Hc.
    cbn [submitError calls fst snd]. fold sa. rewrite Hs. reflexivity.
Qed.

(** X30: once the transaction and the signed proposal are both FULFILLED,
    the button shows "Done" and is disabled, and the status line shows that
    the proposal was submitted, with the link to the transaction. *)
Theorem done_is_shown h :
  isDone h = true ->
  buttonLabel h = DoneLabel
  /\ disabled h = true
  /\ statusLine h = ProposalSubmitted (txEtherscanURL h).
Proof.
  intros Hd. pose proof (isInProcess_not_isDone h) as Hx.
  rewrite Hd, andb_true_r in Hx.
  unfold buttonLabel, disabled, statusLine, isInProcessOrDone.
  rewrite Hx, Hd. cbn [orb]. rewrite orb_true_r.
  split; [reflexivity|]. split; [reflexivity|].
  unfold isDone in Hd. apply andb_true_iff in Hd. destruct Hd as [Ht Hs].
  unfold renderSubmitStatus.
  destruct (txStatus h); try discriminate Ht.
  destruct (proposalSignAndSendStatus h); try discriminate Hs.
  reflexivity.
Qed.

End SponsorActionFacts.

(** ** The further properties on the sample inputs *)

Section ClassifierSamples.

Import Proposals Samples.

Local Abbreviation classify_model :=
  (Proposals.classify proposalHasFlag_bits normalizeString_lower
     BURN_ADDRESS_zero).
Local Abbreviation afterEffect_model :=
  (Proposals.afterClassificationEffect proposalHasFlag_bits
     normalizeString_lower BURN_ADDRESS_zero false).

Lemma no_dao_proposal_unplaced_witness :
  ~ In p_no_record
      (bucket Nonsponsored (classify_model true [] [p_no_record])).
Proof.
  eapply no_dao_proposal_unplaced. reflexivity.
Defined.

Lemma unflagged_with_vote_state_unplaced_witness :
  ~ In p_unflagged
      (bucket Voting (classify_model false results_all [p_unflagged])).
Proof.
  eapply unflagged_with_vote_state_unplaced; reflexivity.
Defined.

Lemma not_yet_submitted_voting_or_failed_witness :
  In p_grace_no_votes
     (failedProposals
        (classify_model false results_all [p_passed; p_grace_no_votes])).
Proof.
  exact (not_yet_submitted_voting_or_failed
           proposalHasFlag_bits normalizeString_lower BURN_ADDRESS_zero false
           results_all [p_passed; p_grace_no_votes] p_grace_no_votes
           dp_sponsored yes5_no3 eq_refl eq_refl eq_refl
           (or_intror (or_introl eq_refl))).
Defined.

Lemma failed_when_NOT_PASS_or_TIE_witness :
  In p_not_pass
     (failedProposals (classify_model false results_all [p_not_pass])).
Proof.
  eapply failed_when_NOT_PASS_or_TIE with (vs := NOT_PASS) (r := yes5_no3);
    try reflexivity.
  - left; reflexivity.
  - left; reflexivity.
  - left; reflexivity.
Defined.

Lemma didPassSimpleMajority_strict_witness :
  didPassSimpleMajority yes5_no3 = true
  /\ didPassSimpleMajority
       (mkVotingResult (mkVoteTally S754_nan) (mkVoteTally (JS.Number 3)))
     = false.
Proof.
  pose proof (didPassSimpleMajority_strict 5 3) as H.
  destruct H as (H1 & H2 & _).
  - unfold JS.MAX_SAFE_INTEGER. simpl. intros Hc. discriminate Hc.
  - unfold JS.MAX_SAFE_INTEGER. simpl. intros Hc. discriminate Hc.
  - split; [exact H1 | exact H2].
Defined.

Lemma error_is_rendered_first_witness :
  render hooks_results_failed [] emptyFilteredProposals
  = ErrorMessageWithDetails (mkError "Failed to fetch").
Proof.
  apply error_is_rendered_first. right; left. split; reflexivity.
Defined.

Lemma loader_while_fetching_witness :
  render hooks_results_pending
         (proposalsForVotingResultsEffect hooks_results_pending)
         (mkFilteredProposals [] [] [p_passed] [])
  = LoaderLarge.
Proof.
  apply loader_while_fetching; [reflexivity|]. right; left; reflexivity.
Defined.



Lemma no_proposals_yet_witness :
  render hooks_no_proposals
         (proposalsForVotingResultsEffect hooks_no_proposals)
         (afterEffect_model hooks_no_proposals
            (mkFilteredProposals [] [] [p_passed] []))
  = NoProposalsYet.
Proof.
  apply no_proposals_yet; try reflexivity. discriminate.
Defined.

End ClassifierSamples.

Section HookSamples.

Import UseDaoTotalUnits Samples.

Local Abbreviation extension_model :=
  (UseDaoTotalUnits.getTotalUnitsFromExtension
     TOTAL_ADDRESS_model GUILD_ADDRESS_model UNITS_ADDRESS_model).
Local Abbreviation subgraph_model :=
  (UseDaoTotalUnits.getTotalUnitsFromSubgraph
     TOTAL_ADDRESS_model GUILD_ADDRESS_model UNITS_ADDRESS_model).
Local Abbreviation networkStatusEffect_model :=
  (UseDaoTotalUnits.networkStatusEffect
     TOTAL_ADDRESS_model GUILD_ADDRESS_model UNITS_ADDRESS_model).
Local Abbreviation runEffects_model :=
  (UseDaoTotalUnits.runEffects
     TOTAL_ADDRESS_model GUILD_ADDRESS_model UNITS_ADDRESS_model).

Lemma subgraph_path_fulfilled_witness :
  networkStatusEffect_model inputs_ok_data world0 =
  (Normal tt,
   mkWorld (mkState (Some (JS.Number 100)) (Some (JS.Number 40))
                    FULFILLED None)
           []).
Proof.
  exact (subgraph_path_fulfilled
           TOTAL_ADDRESS_model GUILD_ADDRESS_model UNITS_ADDRESS_model
           inputs_ok_data world0 (mkQueryData [mkTributeDao 100 40])
           (mkTributeDao 100 40) [] eq_refl eq_refl eq_refl eq_refl eq_refl).
Defined.

Lemma subgraph_failure_falls_back_witness :
  subgraph_model query_failed (Some bank_100_60) world0 =
  extension_model (Some bank_100_60)
                  (snd (setTotalUnitsStatus PENDING world0)).
Proof.
  apply subgraph_failure_falls_back. left. split; [reflexivity|discriminate].
Defined.

Lemma subgraph_without_reply_stays_pending_witness :
  subgraph_model query_failed None world0 =
  (Normal tt, mkWorld (mkState None None PENDING None) []).
Proof.
  exact (subgraph_without_reply_stays_pending
           TOTAL_ADDRESS_model GUILD_ADDRESS_model UNITS_ADDRESS_model
           query_failed None world0 (or_intror (conj eq_refl eq_refl))).
Defined.

Lemma ok_effect_waits_witness :
  state (snd (runEffects_model inputs_ok_loading world0)) = initialState.
Proof.
  exact (proj2 (ok_effect_waits
                  TOTAL_ADDRESS_model GUILD_ADDRESS_model UNITS_ADDRESS_model
                  inputs_ok_loading world0 eq_refl (or_introl eq_refl))).
Defined.

(** The bank fails, then answers: FULFILLED, and the first error is
    still in the state. *)
Lemma error_never_cleared_witness :
  totalUnitsStatus
    (state (snd (runEffects_model inputs_bank_answers
                   (snd (runEffects_model inputs_bank_failing world0)))))
  = FULFILLED
  /\ totalUnitsError
       (state (snd (runEffects_model inputs_bank_answers
                      (snd (runEffects_model inputs_bank_failing world0)))))
     <> None.
Proof.
  split; [reflexivity|].
  apply error_never_cleared. discriminate.
Defined.

End HookSamples.

Section SponsorActionSamples.

Import UseDaoTotalUnits SponsorAction SponsorSamples.

Local Abbreviation handleSubmit_model sign :=
  (SponsorAction.handleSubmit getContractByAddress_found sign
     prepareVoteProposalData_hex txSend_ok toString_decimal parseInt_decimal).
Local Abbreviation onClick_model :=
  (SponsorAction.onClick getContractByAddress_found signAndSendProposal_signs
     prepareVoteProposalData_hex txSend_ok toString_decimal parseInt_decimal).

Lemma click_is_ignored_unless_idle_witness :
  buttonLabel hooks_signing = LoaderLabel
  /\ disabled hooks_signing = true
  /\ onClick_model hooks_signing (Some draft) world0 = (Normal tt, world0).
Proof.
  split; [reflexivity|].
  apply click_is_ignored_unless_idle. left. discriminate.
Defined.

Lemma submit_without_address_or_draft_witness :
  handleSubmit_model signAndSendProposal_signs hooks_no_address (Some draft)
                     world0
  = (Normal tt,
     SponsorAction.mkWorld
       (Some (mkError "No DAO Registry address was found.")) []).
Proof.
  exact (submit_without_address_or_draft
           getContractByAddress_found signAndSendProposal_signs
           prepareVoteProposalData_hex txSend_ok toString_decimal
           parseInt_decimal hooks_no_address (Some draft) world0
           (or_introl eq_refl)).
Defined.

Lemma submit_success_witness :
  handleSubmit_model signAndSendProposal_signs hooks_idle (Some draft)
                     world_with_error
  = (Normal tt,
     SponsorAction.mkWorld
       (Some (mkError "User denied message signature"))
       [SignAndSendProposal
          (mkSignArguments
             (mkDraftPayload "Join" "Please" "{}", "1600000000"%string)
             "0xAdapter" SnapshotType_proposal);
        TxSend "sponsorProposal" "onboarding"
               ("0xDA0"%string, "0xAbC4"%string, "0xdata"%string)
               (mkTxArguments "0xMember" (Some "42"%string))]).
Proof.
  exact (submit_success
           getContractByAddress_found signAndSendProposal_signs
           prepareVoteProposalData_hex txSend_ok toString_decimal
           parseInt_decimal hooks_idle draft world_with_error
           "0xDA0" adapter signed eq_refl eq_refl eq_refl eq_refl eq_refl).
Defined.

Lemma submit_failure_is_recorded_witness :
  handleSubmit_model signAndSendProposal_rejects hooks_idle (Some draft)
                     world0
  = (Normal tt,
     SponsorAction.mkWorld
       (Some (mkError "User denied message signature"))
       [SignAndSendProposal
          (mkSignArguments
             (mkDraftPayload "Join" "Please" "{}", "1600000000"%string)
             "0xAdapter" SnapshotType_proposal)]).
Proof.
  exact (proj2 (submit_failure_is_recorded
                  getContractByAddress_found signAndSendProposal_rejects
                  prepareVoteProposalData_hex txSend_ok toString_decimal
                  parseInt_decimal hooks_idle draft world0 "0xDA0"
                  (mkError "User denied message signature")
                  eq_refl eq_refl)
               adapter eq_refl eq_refl).
Defined.

Lemma done_is_shown_witness :
  buttonLabel SponsorSamples.hooks_done = DoneLabel
  /\ disabled SponsorSamples.hooks_done = true
  /\ statusLine SponsorSamples.hooks_done
     = ProposalSubmitted "https://etherscan.io/tx/0x1".
Proof.
  exact (done_is_shown SponsorSamples.hooks_done eq_refl).
Defined.

End SponsorActionSamples.
